(** * samfirm.js: a shallow embedding of the firmware acquisition core

    The development follows the source tree:
    - [JS]               the fragment of JavaScript values and string
                         primitives the sources rely on;
    - [ModelTransformer] src/utils/modelTransformer.ts;
    - [Runtime]          the effects of the orchestration code, as a writer
                         monad with exceptions;
    - [DirectDownload]   src/utils/directDownload.ts;
    - [GofileUpload]     src/utils/gofileUpload.ts;
    - [Index]            src/index.ts;
    - [Sample]           concrete collaborators and inputs for the examples.

    Console output is left out, except for the lines the statements are
    about.  Network, file system, clock and the collaborators whose sources
    are imported from other files ([handleAuthRotation],
    [getBinaryInformMsg], ...) are section variables: every statement holds
    for all of them. *)

From Stdlib Require Import ZArith Lia Ascii.
From stdpp Require Import base option list strings gmap fin_maps sorting.

(** ** JavaScript values and string primitives *)

Module JS.

(** The values that reach the modelled code.  A string-typed binding can
    hold [undefined] (array destructuring past the end) or a property
    inherited from [Object.prototype] (indexing an object literal). *)
Inductive jsval : Type :=
  | JUndefined
  | JString (s : string)
  | JNativeFunction (name : string)
  | JObjectPrototype.

#[global] Instance jsval_eq_dec : EqDecision jsval.
Proof. solve_decision. Defined.

(** [a !== b] *)
Definition strict_neq (a b : jsval) : bool := bool_decide (a ≠ b).

(** ToBoolean *)
Definition truthy (v : jsval) : bool :=
  match v with
  | JUndefined => false
  | JString s => bool_decide (s ≠ "")
  | JNativeFunction _ | JObjectPrototype => true
  end.

(** [a || b] *)
Definition or_else (a b : jsval) : jsval := if truthy a then a else b.

(** ToString, as applied to a [${...}] hole of a template literal. *)
Definition tpl (v : jsval) : string :=
  match v with
  | JUndefined => "undefined"
  | JString s => s
  | JNativeFunction name => "function " +:+ name +:+ "() { [native code] }"
  | JObjectPrototype => "[object Object]"
  end.

(** [s.split(sep)] for a one-character separator. *)
Fixpoint split (sep : Ascii.ascii) (s : string) : list string :=
  match s with
  | EmptyString => [""]
  | String c rest =>
      if Ascii.eqb c sep then "" :: split sep rest
      else match split sep rest with
           | [] => [String c ""]
           | w :: ws => String c w :: ws
           end
  end.

(** [arr[i]]: reading past the end gives [undefined]. *)
Definition index (arr : list string) (i : nat) : jsval :=
  match arr !! i with
  | Some s => JString s
  | None => JUndefined
  end.

(** [arr.pop()] on a fresh array: its last element. *)
Definition pop (arr : list string) : jsval :=
  match last arr with
  | Some s => JString s
  | None => JUndefined
  end.

(** [s.startsWith(p)] *)
Definition startsWith (s p : string) : bool := String.prefix p s.

(** [s.slice(0, n)] *)
Definition slice0 (n : nat) (s : string) : string := String.substring 0 n s.

(** The properties every object literal inherits from [Object.prototype]. *)
Definition prototype_methods : list string :=
  [ "__defineGetter__"; "__defineSetter__"; "hasOwnProperty";
    "__lookupGetter__"; "__lookupSetter__"; "isPrototypeOf";
    "propertyIsEnumerable"; "toString"; "valueOf"; "toLocaleString" ].

Definition Object_prototype (k : string) : option jsval :=
  if decide (k = "constructor") then Some (JNativeFunction "Object")
  else if decide (k = "__proto__") then Some JObjectPrototype
  else if decide (k ∈ prototype_methods) then Some (JNativeFunction k)
  else None.

(** [obj[k]] for an object literal whose own properties are [own]. *)
Definition get (own : gmap string string) (k : string) : jsval :=
  match own !! k with
  | Some v => JString v
  | None => default JUndefined (Object_prototype k)
  end.

(** [k in obj] *)
Definition has (own : gmap string string) (k : string) : bool :=
  bool_decide (is_Some (own !! k)) || bool_decide (is_Some (Object_prototype k)).

(** A JavaScript number as [parseInt] can return it. *)
Inductive jsnum : Type :=
  | NaN
  | Num (z : Z)
  | Infinity (negative : bool).

(** ToBoolean on numbers: [0] and [NaN] are falsy. *)
Definition num_truthy (n : jsnum) : bool :=
  match n with
  | NaN => false
  | Num z => bool_decide (z ≠ 0%Z)
  | Infinity _ => true
  end.

(** [n > bound] for an integer literal [bound]. *)
Definition num_gt (n : jsnum) (bound : Z) : bool :=
  match n with
  | NaN => false
  | Num z => bool_decide (bound < z)%Z
  | Infinity negative => negb negative
  end.

(** [v || d] where [v] is a string or [undefined] and [d] a string literal. *)
Definition or_default (v : jsval) (d : string) : string :=
  match v with
  | JString s => if decide (s = "") then d else s
  | _ => d
  end.

(** How a call ends: it returns, throws (a rejected promise), never settles,
    or the process is terminated by [process.exit(code)]. *)
Inductive outcome (A : Type) : Type :=
  | Return (a : A)
  | Throw (message : string)
  | Pending
  | Exit (code : Z).
Arguments Return {A} a.
Arguments Throw {A} message.
Arguments Pending {A}.
Arguments Exit {A} code.

(** [c] occurs in [s]. *)
Fixpoint occurs (c : Ascii.ascii) (s : string) : bool :=
  match s with
  | EmptyString => false
  | String a s => Ascii.eqb a c || occurs c s
  end.

(** [parts.join(sep)] *)
Fixpoint join (sep : string) (parts : list string) : string :=
  match parts with
  | [] => ""
  | w :: ws =>
      match ws with
      | [] => w
      | _ :: _ => w +:+ sep +:+ join sep ws
      end
  end.

(** [s.slice(n)] *)
Fixpoint skip (n : nat) (s : string) : string :=
  match n, s with
  | O, _ => s
  | S n, EmptyString => ""
  | S n, String _ s => skip n s
  end.

(** [s.replace(pattern, replacement)] for a string pattern and a replacement
    without [$]: only the first occurrence is replaced. *)
Fixpoint replace (pattern replacement s : string) : string :=
  if String.prefix pattern s then
    replacement +:+ skip (String.length pattern) s
  else
    match s with
    | EmptyString => ""
    | String c rest => String c (replace pattern replacement rest)
    end.

(** The outcome of a call that did not return, seen from its caller. *)
Definition stop {A B} (o : outcome A) : outcome B :=
  match o with
  | Return _ => Pending
  | Throw message => Throw message
  | Pending => Pending
  | Exit code => Exit code
  end.

(** [undefined] and [null]: the values no property can be read from. *)
Inductive nullish : Type :=
  | Undefined
  | Null.

(** The message of the TypeError V8 raises when [property] is read from a
    nullish value. *)
Definition TypeError_message (base : nullish) (property : string) : string :=
  "Cannot read properties of "
  +:+ match base with Undefined => "undefined" | Null => "null" end
  +:+ " (reading '" +:+ property +:+ "')".

(** A value the code reads properties from, as it comes out of a parsed
    response: nullish, or anything else; [A] holds the properties the code
    reads, a property the value does not have being [JUndefined]. *)
Inductive maybe_object (A : Type) : Type :=
  | Nullish (n : nullish)
  | AnObject (a : A).
Arguments Nullish {A} n.
Arguments AnObject {A} a.

End JS.

(** ** src/utils/modelTransformer.ts *)

Module ModelTransformer.
Import JS.

Record model_info : Type := {
  original : string;
  transformed : jsval;
  wasTransformed : bool;
}.

Section Table.
(** The own properties of the object literal [MODEL_TRANSFORMATIONS]. *)
Variable table : gmap string string.

Definition transformModel_with (originalModel : string) : model_info :=
  let transformed := or_else (get table originalModel) (JString originalModel) in
  let wasTransformed := strict_neq transformed (JString originalModel) in
  {| original := originalModel;
     transformed := transformed;
     wasTransformed := wasTransformed |}.

Definition requiresTransformation_with (model : string) : bool := has table model.
End Table.

Definition MODEL_TRANSFORMATIONS : gmap string string :=
  list_to_map
    [ ("s906b", "s916b"); ("S906B", "S916B");
      ("SM-S906B", "SM-S916B"); ("sm-s906b", "sm-s916b") ].

Definition transformModel : string → model_info :=
  transformModel_with MODEL_TRANSFORMATIONS.

Definition requiresTransformation : string → bool :=
  requiresTransformation_with MODEL_TRANSFORMATIONS.

(** The properties of the object literal, in the order they are written. *)
Definition entries : list (string * string) :=
  [ ("s906b", "s916b"); ("S906B", "S916B");
    ("SM-S906B", "SM-S916B"); ("sm-s906b", "sm-s916b") ].

(** [{ from, to }] *)
Record transformation : Type := {
  from : string;
  to : string;
}.

(** [Object.entries(MODEL_TRANSFORMATIONS).map(([from, to]) => ({ from, to }))]:
    the own properties, in insertion order. *)
Definition getSupportedTransformations : list transformation :=
  (λ e, {| from := e.1; to := e.2 |}) <$> entries.

End ModelTransformer.

(** ** Effects of the orchestration code *)

Module Runtime.
Import JS.

(** The bodies of the POST requests.  [getBinaryInformMsg] and
    [getBinaryInitMsg] live in utils/msgUtils; a body is kept as the call
    that builds it. *)
Inductive body : Type :=
  | EmptyBody
  | BinaryInformMsg (version : string) (region : string) (model : jsval) (nonce : string)
  | BinaryInitMsg (filename : string) (nonce : string)
  | NoBody.

Record request : Type := {
  method : string;
  req_url : string;
  req_body : body;
  req_headers : gmap string string;
}.

(** What the code does to the outside world, in program order. *)
Inductive effect : Type :=
  | HttpRequest (r : request)
  | MkdirSync (path : string)
  | ProgressBarStart (total value : Z)
  | ProgressBarUpdate (value : Z) (file : string)
  | CreateWriteStream (path : string)
  | UploadAnnounced (filePath : string)
  | GofileUpload (url filePath : string)
  | WriteFileSync (path content : string)
  | ConsoleError (message : string)
  | ProcessExit (code : Z).

(** Neither the announcement nor the POST of an upload. *)
Definition no_upload (e : effect) : Prop :=
  match e with
  | UploadAnnounced _ | GofileUpload _ _ => False
  | _ => True
  end.

(** A computation: the effects it performed and how it ended. *)
Definition M (A : Type) : Type := list effect * outcome A.

Definition ret {A} (a : A) : M A := ([], Return a).

(** [m] after the effects [es]. *)
Definition after {A} (es : list effect) (m : M A) : M A := (es ++ m.1, m.2).

Definition bind {A B} (m : M A) (k : A → M B) : M B :=
  match m with
  | (es, Return a) => after es (k a)
  | (es, Throw e) => (es, Throw e)
  | (es, Pending) => (es, Pending)
  | (es, Exit c) => (es, Exit c)
  end.

Definition perform (e : effect) : M unit := ([e], Return tt).
Definition throw {A} (message : string) : M A := ([], Throw message).
Definition await {A} (o : outcome A) : M A := ([], o).

(** [o.property], the first read the code makes of [o]. *)
Definition read_from {A} (o : maybe_object A) (property : string) : M A :=
  match o with
  | AnObject a => ret a
  | Nullish n => throw (TypeError_message n property)
  end.

(** [process.exit(code)] *)
Definition process_exit {A} (code : Z) : M A := ([ProcessExit code], Exit code).

(** [try { m } catch (error) { handler error.message }] *)
Definition try_catch {A} (m : M A) (handler : string → M A) : M A :=
  match m with
  | (es, Throw e) => after es (handler e)
  | _ => m
  end.

Definition effects {A} (m : M A) : list effect := m.1.
Definition result {A} (m : M A) : outcome A := m.2.

(** The requests among the effects, in order. *)
Definition requests (es : list effect) : list request :=
  omap (λ e, match e with HttpRequest r => Some r | _ => None end) es.

(** The paths of the write streams created, in order. *)
Definition write_streams (es : list effect) : list string :=
  omap (λ e, match e with CreateWriteStream path => Some path | _ => None end) es.

(** No directory is created, no file is written. *)
Definition no_file_effect (e : effect) : Prop :=
  match e with
  | MkdirSync _ | CreateWriteStream _ | WriteFileSync _ _ => False
  | _ => True
  end.

(** A computation that creates no directory and no file unless it returns. *)
Definition quiet_unless_returns {A} (m : M A) : Prop :=
  (∀ a, result m ≠ Return a) → Forall no_file_effect (effects m).

End Runtime.

Notation "'let*' x ':=' m 'in' k" := (Runtime.bind m (λ x, k))
  (at level 10, x name, m at level 100, k at level 200, only parsing).
Notation "'run' m 'in' k" := (Runtime.bind m (λ _, k))
  (at level 10, m at level 100, k at level 200, only parsing).

(** ** src/utils/directDownload.ts *)

Module DirectDownload.
Import JS Runtime.

(** [model], [pda], [csc] and [modem] are declared [string]; the values the
    caller passes come from [transformModel] and from a destructured
    [split], so they are kept as [jsval].  The optional [filename] field is
    never written nor read. *)
Record DirectFirmwareInfo : Type := {
  model : jsval;
  region : string;
  pda : jsval;
  csc : jsval;
  modem : jsval;
}.

Definition possibleFilenames (info : DirectFirmwareInfo) : list string :=
  let model := tpl (model info) in
  let region := region info in
  let pda := tpl (pda info) in
  let csc := tpl (csc info) in
  let modem := tpl (modem info) in
  [ model +:+ "_" +:+ pda +:+ "_" +:+ csc +:+ "_" +:+ modem +:+ "_HOME.tar.md5";
    model +:+ "_" +:+ pda +:+ "_" +:+ csc +:+ "_" +:+ modem +:+ ".tar.md5";
    model +:+ "_" +:+ region +:+ "_" +:+ pda +:+ "_" +:+ csc +:+ "_" +:+ modem +:+ "_HOME.tar.md5";
    model +:+ "_" +:+ region +:+ "_" +:+ pda +:+ "_" +:+ csc +:+ "_" +:+ modem +:+ ".tar.md5";
    pda +:+ "_" +:+ csc +:+ "_" +:+ modem +:+ "_HOME.tar.md5";
    pda +:+ "_" +:+ csc +:+ "_" +:+ modem +:+ ".tar.md5" ].

Definition baseUrls : list string :=
  [ "http://cloud-neofussvr.sslcs.cdngc.net/NF_DownloadBinaryForMass.do?file=";
    "https://cloud-neofussvr.sslcs.cdngc.net/NF_DownloadBinaryForMass.do?file=";
    "http://neofussvr.sslcs.cdngc.net/NF_DownloadBinaryForMass.do?file=";
    "https://neofussvr.sslcs.cdngc.net/NF_DownloadBinaryForMass.do?file=" ].

Definition pathPatterns (info : DirectFirmwareInfo) : list string :=
  let model := tpl (model info) in
  let region := region info in
  let pda := tpl (pda info) in
  [ "/neofus/firmware/" +:+ region +:+ "/" +:+ model +:+ "/" +:+ pda +:+ "/";
    "/neofus/firmware/" +:+ region +:+ "/" +:+ model +:+ "/";
    "/firmware/" +:+ region +:+ "/" +:+ model +:+ "/" +:+ pda +:+ "/";
    "/firmware/" +:+ region +:+ "/" +:+ model +:+ "/";
    "/" +:+ region +:+ "/" +:+ model +:+ "/" +:+ pda +:+ "/";
    "/" +:+ region +:+ "/" +:+ model +:+ "/" ].

(** [urls.push(x)] *)
Definition push (urls : list string) (x : string) : list string := urls ++ [x].

(** Three nested [for ... of] loops pushing onto [urls]. *)
Definition constructFirmwareUrls (info : DirectFirmwareInfo) : list string :=
  foldl (λ urls baseUrl,
    foldl (λ urls pathPattern,
      foldl (λ urls filename, push urls (baseUrl +:+ pathPattern +:+ filename))
            urls (possibleFilenames info))
          urls (pathPatterns info))
        [] baseUrls.

(** What [axios.head] resolves with, as far as the code reads it. *)
Record head_response : Type := {
  status : Z;
  headers : gmap string string;
}.

(** [{ accessible, size?, filename? }] *)
Record probe : Type := {
  accessible : bool;
  size : option jsnum;
  filename : option string;
}.

(** [{ url, ...result }] *)
Record probed : Type := {
  probed_url : string;
  probed_result : probe;
}.

(** The object [findAccessibleFirmwareUrl] resolves with: [result.url],
    [result.size] and [result.filename!]. *)
Record found : Type := {
  url : string;
  found_size : option jsnum;
  found_filename : option string;
}.

Definition batchSize : nat := 5.

(** [Promise.all]: a promise that settles stores its value in its own slot of
    the result array; the combined promise resolves with the array once no
    slot is empty.  [order] lists the promises in the order they settle. *)
Definition settle {A} (promises : list A) (values : list (option A)) (i : nat)
  : list (option A) :=
  match promises !! i with
  | Some v => <[i := Some v]> values
  | None => values
  end.

Definition Promise_all {A} (order : list nat) (promises : list A) : option (list A) :=
  mapM id (foldl (settle promises) (replicate (length promises) None) order).

(** Slot [i] of [values] holds the value of promise [i]. *)
Definition filled {A} (promises : list A) (values : list (option A)) (i : nat) : Prop :=
  ∃ v, promises !! i = Some v ∧ values !! i = Some (Some v).

(** [result.accessible && result.size && result.size > 1000000] *)
Definition plausible (result : probe) : bool :=
  accessible result &&
  match size result with
  | Some n => num_truthy n && num_gt n 1000000
  | None => false
  end.

(** [for (const result of results) if (...) return {...}] *)
Fixpoint first_plausible (results : list probed) : option found :=
  match results with
  | [] => None
  | result :: rest =>
      if plausible (probed_result result) then
        Some {| url := probed_url result;
                found_size := size (probed_result result);
                found_filename := filename (probed_result result) |}
      else first_plausible rest
  end.

Section Network.
(** [axios.head(url, ...)]: [None] when the call rejects (network error,
    timeout, or a status outside 2xx). *)
Variable axios_head : string → option head_response.
(** The language's [parseInt]. *)
Variable parseInt : string → jsnum.
(** [order b] is the order in which the probes of batch [b] settle. *)
Variable order : nat → list nat.

Definition testFirmwareUrl (url : string) : probe :=
  match axios_head url with
  | Some response =>
      if bool_decide (status response = 200%Z) then
        let size := parseInt (or_default (get (headers response) "content-length") "0") in
        let filename := or_default (pop (split "/" url)) "firmware.tar.md5" in
        {| accessible := true; size := Some size; filename := Some filename |}
      else {| accessible := false; size := None; filename := None |}
  | None => {| accessible := false; size := None; filename := None |}
  end.

(** [batch.map(async (url) => ({ url, ...await testFirmwareUrl(url) }))],
    each promise standing for the value it resolves with. *)
Definition probe_all (batch : list string) : list probed :=
  (λ url, {| probed_url := url; probed_result := testFirmwareUrl url |}) <$> batch.

(** The loop [for (let i = 0; i < urls.length; i += batchSize)]; [fuel]
    bounds the number of iterations. *)
Fixpoint search (urls : list string) (fuel i : nat) : outcome (option found) :=
  if bool_decide (i < length urls) then
    match fuel with
    | O => Pending
    | S fuel =>
        let batch := take batchSize (drop i urls) in
        match Promise_all (order (i / batchSize)) (probe_all batch) with
        | None => Pending
        | Some results =>
            match first_plausible results with
            | Some hit => Return (Some hit)
            | None => search urls fuel (i + batchSize)
            end
        end
    end
  else Return None.

Definition findAccessibleFirmwareUrl (info : DirectFirmwareInfo) : outcome (option found) :=
  let urls := constructFirmwareUrls info in
  search urls (length urls) 0.

(** Every probe of every batch of [n] candidates settles. *)
Definition all_settle (n : nat) : Prop :=
  ∀ b j, j < batchSize → b * batchSize + j < n → j ∈ order b.

(** [hit] describes the candidate at position [k] of [urls], the probe of
    which passes the test of the loop while no earlier candidate's does. *)
Definition first_hit (urls : list string) (k : nat) (hit : found) : Prop :=
  urls !! k = Some (url hit) ∧
  plausible (testFirmwareUrl (url hit)) = true ∧
  found_size hit = size (testFirmwareUrl (url hit)) ∧
  found_filename hit = filename (testFirmwareUrl (url hit)) ∧
  ∀ j u, j < k → urls !! j = Some u → plausible (testFirmwareUrl u) = false.

Definition no_url_message : string :=
  "No accessible firmware URLs found. Samsung may have changed their URL structure or blocked access.".

(** [path.join] and [path.dirname] of Node, [fs.existsSync]. *)
Variable path_join : string → string → string.
Variable path_dirname : string → string.
Variable existsSync : string → bool.
(** The streaming GET of [downloadFirmwareDirect]: it throws when the
    request fails. *)
Variable axios_get : string → outcome unit.
(** The write stream on a path fed with the response: it returns on
    ["finish"] and throws on ["error"]. *)
Variable written : string → outcome unit.

Definition download_headers : gmap string string :=
  <["Accept-Encoding" := "identity"]>
  (<["Accept" := "*/*"]>
  {["User-Agent" := "Mozilla/5.0 (Windows NT 10.0; Win64; x64) AppleWebKit/537.36"]}).

Definition downloadFirmwareDirect (url outputPath : string) : M string :=
  run perform (HttpRequest {| method := "GET"; req_url := url;
                              req_body := NoBody;
                              req_headers := download_headers |}) in
  run await (axios_get url) in
  let outputDir := path_dirname outputPath in
  run (if existsSync outputDir then ret tt else perform (MkdirSync outputDir)) in
  run perform (CreateWriteStream outputPath) in
  run await (written outputPath) in
  ret outputPath.

Definition directDownloadWorkflow (info : DirectFirmwareInfo) (outputDir : string)
  : M string :=
  let* urlInfo := await (findAccessibleFirmwareUrl info) in
  match urlInfo with
  | None => throw no_url_message
  | Some urlInfo =>
      match found_filename urlInfo with
      | Some filename =>
          downloadFirmwareDirect (url urlInfo) (path_join outputDir filename)
      | None => throw "ERR_INVALID_ARG_TYPE"
      end
  end.
End Network.

End DirectDownload.

(** ** src/utils/gofileUpload.ts *)

Module GofileUpload.
Import JS Runtime.

(** [downloadPage], [directLink] and [fileId] are declared [string]; they
    are copied from the answer of the host, which may lack them. *)
Record GofileUploadResult : Type := {
  success : bool;
  downloadPage : jsval;
  directLink : jsval;
  fileId : jsval;
  fileName : string;
  fileSize : Z;
  uploadTime : string;
}.

(** [response.data.data] of the upload POST. *)
Record upload_data : Type := {
  up_downloadPage : jsval;
  up_directLink : jsval;
  up_fileId : jsval;
}.

(** The properties read from [response.data] of the upload POST. *)
Record upload_answer : Type := {
  up_status : jsval;
  up_message : jsval;
  up_data : maybe_object upload_data;
}.

(** [response.data] of the upload POST. *)
Definition upload_response : Type := maybe_object upload_answer.

(** The properties read from [response.data] of the server lookup:
    [status], and [data] with its property [server]. *)
Record server_answer : Type := {
  sv_status : jsval;
  sv_data : maybe_object jsval;
}.

(** [response.data] of the server lookup. *)
Definition server_response : Type := maybe_object server_answer.

(** One ['data'] event of the form stream: the chunk's length and what
    [Date.now()] returns while its handler runs. *)
Record tick : Type := {
  chunk_length : N;
  now : Z;
}.

(** What the handlers print. [SpeedLine bytes ms] is the line
    [Upload speed: ... MB/s] computed from [bytes / (ms / 1000)];
    [ProgressLine uploaded total] is the line [Uploaded: .../... bytes]. *)
Inductive report : Type :=
  | SpeedLine (bytes elapsed_ms : Z)
  | ProgressLine (uploaded total : Z).

(** The variables the callback of [uploadFirmwareToGofile] closes over. *)
Record throttle : Type := {
  lastProgressTime : Z;
  lastUploadedBytes : Z;
}.

(** The callback [(uploaded, total) => {...}] of [uploadFirmwareToGofile],
    run at clock reading [now]. *)
Definition onProgress (now uploaded total : Z) (t : throttle) : throttle * list report :=
  if bool_decide (now - lastProgressTime t > 2000)%Z then
    ({| lastProgressTime := now; lastUploadedBytes := uploaded |},
     [SpeedLine (uploaded - lastUploadedBytes t) (now - lastProgressTime t)])
  else (t, []).

(** State of one upload: [uploadedBytes] of [uploadToGofile], the closure
    of the callback, and everything printed so far, each line with the
    clock reading of the handler run that printed it. *)
Record upload_state : Type := {
  uploadedBytes : Z;
  closure : throttle;
  printed : list (Z * report);
}.

(** [formData.on('data', chunk => {...})] with the callback installed. *)
Definition on_data (fileSize : Z) (st : upload_state) (c : tick) : upload_state :=
  let uploadedBytes := (uploadedBytes st + Z.of_N (chunk_length c))%Z in
  let '(closure, lines) := onProgress (now c) uploadedBytes fileSize (closure st) in
  {| uploadedBytes := uploadedBytes;
     closure := closure;
     printed := printed st ++ ((λ l, (now c, l)) <$> lines)
                           ++ [(now c, ProgressLine uploadedBytes fileSize)] |}.

(** The handlers of one upload started at clock reading [start], fed the
    chunks in order. *)
Definition upload_handlers (start fileSize : Z) (chunks : list tick) : upload_state :=
  foldl (on_data fileSize)
        {| uploadedBytes := 0;
           closure := {| lastProgressTime := start; lastUploadedBytes := 0 |};
           printed := [] |}
        chunks.

Definition speed_times (lines : list (Z * report)) : list Z :=
  omap (λ l, match l.2 with SpeedLine _ _ => Some l.1 | ProgressLine _ _ => None end) lines.

Definition progress_times (lines : list (Z * report)) : list Z :=
  omap (λ l, match l.2 with ProgressLine _ _ => Some l.1 | SpeedLine _ _ => None end) lines.

(** The window of two seconds that opens at clock reading [w]. *)
Definition in_window (w t : Z) : bool := (w <=? t)%Z && (t <=? w + 2000)%Z.

(** How many of the clock readings [times] fall in the window at [w]. *)
Definition count_in_window (w : Z) (times : list Z) : nat :=
  length (filter (λ t, in_window w t = true) times).

(** Each reading is more than two seconds after the one before it, the
    first one after [prev]. *)
Fixpoint spaced (prev : Z) (times : list Z) : Prop :=
  match times with
  | [] => True
  | t :: times => (t - prev > 2000)%Z ∧ spaced t times
  end.

(** The bytes the chunks carry. *)
Definition chunk_total (chunks : list tick) : Z :=
  foldr (λ c n, (Z.of_N (chunk_length c) + n)%Z) 0%Z chunks.

(** The bytes the speed lines account for. *)
Definition speed_bytes (lines : list (Z * report)) : Z :=
  foldr (λ l n, match l.2 with
                | SpeedLine bytes _ => (bytes + n)%Z
                | ProgressLine _ _ => n
                end) 0%Z lines.

(** Every speed line is computed over more than two seconds. *)
Definition speed_interval_ok (l : Z * report) : Prop :=
  match l.2 with
  | SpeedLine _ elapsed_ms => (2000 < elapsed_ms)%Z
  | ProgressLine _ _ => True
  end.

(** The byte counts of the progress lines, in order. *)
Definition progress_counts (lines : list (Z * report)) : list (Z * Z) :=
  omap (λ l, match l.2 with
             | ProgressLine uploaded total => Some (uploaded, total)
             | SpeedLine _ _ => None
             end) lines.

(** The running totals of the chunks, starting from [n]. *)
Fixpoint running_totals (n : Z) (chunks : list tick) : list Z :=
  match chunks with
  | [] => []
  | c :: chunks =>
      let n := (n + Z.of_N (chunk_length c))%Z in
      n :: running_totals n chunks
  end.

Section Host.
Variable existsSync : string → bool.
(** [fs.statSync(filePath).size] *)
Variable statSync_size : string → Z.
(** [path.basename] of Node. *)
Variable path_basename : string → string.
(** [response.data] of the GET to api.gofile.io/getServer; [None] when the
    request rejects. *)
Variable getServer : option server_response.
(** The POST of the form to [url]. *)
Variable post_upload : string → string → outcome upload_response.
(** [new Date().toISOString()] *)
Variable toISOString : string.

(** The whole body is in [try]: a rejected request and a TypeError of a
    property read alike end in [return 'store1']. *)
Definition getBestServer : M jsval :=
  run perform (HttpRequest {| method := "GET";
                              req_url := "https://api.gofile.io/getServer";
                              req_body := NoBody; req_headers := ∅ |}) in
  match getServer with
  | Some response =>
      try_catch
        (let* answer := read_from response "status" in
         if decide (sv_status answer = JString "ok") then
           read_from (sv_data answer) "server"
         else ret (JString "store1"))
        (λ _, ret (JString "store1"))
  | None => ret (JString "store1")
  end.

Definition uploadToGofile (filePath : string) : M GofileUploadResult :=
  if existsSync filePath then
    let fileName := path_basename filePath in
    let fileSize := statSync_size filePath in
    let* server := getBestServer in
    let url := "https://" +:+ tpl server +:+ ".gofile.io/uploadFile" in
    try_catch
      (run perform (GofileUpload url filePath) in
       let* response := await (post_upload url filePath) in
       let* answer := read_from response "status" in
       if decide (up_status answer = JString "ok") then
         let* data := read_from (up_data answer) "downloadPage" in
         ret {| success := true;
                downloadPage := up_downloadPage data;
                directLink := or_else (up_directLink data) (up_downloadPage data);
                fileId := up_fileId data;
                fileName := fileName;
                fileSize := fileSize;
                uploadTime := toISOString |}
       else throw ("Upload failed: "
                   +:+ tpl (or_else (up_message answer) (JString "Unknown error"))))
      (λ message, throw ("Gofile.io upload failed: " +:+ message))
  else throw ("File not found: " +:+ filePath).

(** [firmwareInfo] is only printed, in the lines that announce the upload. *)
Definition uploadFirmwareToGofile (filePath : string) : M GofileUploadResult :=
  run perform (UploadAnnounced filePath) in
  uploadToGofile filePath.
End Host.

(** The request of [getBestServer]. *)
Definition server_request : request :=
  {| method := "GET"; req_url := "https://api.gofile.io/getServer";
     req_body := NoBody; req_headers := ∅ |}.

(** The server [getBestServer] settles on, given the answer to its request. *)
Definition chosen_server (getServer : option server_response) : jsval :=
  match getServer with
  | Some (AnObject answer) =>
      if decide (sv_status answer = JString "ok") then
        match sv_data answer with
        | AnObject server => server
        | Nullish _ => JString "store1"
        end
      else JString "store1"
  | _ => JString "store1"
  end.

(** [`https://${server}.gofile.io/uploadFile`] *)
Definition upload_url (getServer : option server_response) : string :=
  "https://" +:+ tpl (chosen_server getServer) +:+ ".gofile.io/uploadFile".

(** The result built from the data of an answer with status [ok]. *)
Definition result_of (fileName : string) (fileSize : Z) (uploadTime : string)
  (data : upload_data) : GofileUploadResult :=
  {| success := true;
     downloadPage := up_downloadPage data;
     directLink := or_else (up_directLink data) (up_downloadPage data);
     fileId := up_fileId data;
     fileName := fileName;
     fileSize := fileSize;
     uploadTime := uploadTime |}.

End GofileUpload.

(** ** src/index.ts *)

Module Index.
Import JS Runtime ModelTransformer.

(** [{ pda, csc, modem }]: the three bindings of the destructured
    [split("/")]. *)
Record version_triple : Type := {
  pda : jsval;
  csc : jsval;
  modem : jsval;
}.

(** The mutable [nonce] object of [main]. *)
Record nonce_pair : Type := {
  encrypted : string;
  decrypted : string;
}.

(** The two objects the closure [handleHeaders] mutates. *)
Record session : Type := {
  nonce : nonce_pair;
  headers : gmap string string;
}.

(** [res.headers]: the two entries the code reads, and the rest. *)
Record response_headers : Type := {
  nonce_header : option string;
  set_cookie : option (list string);
  other_headers : gmap string string;
}.

Record response : Type := {
  res_headers : response_headers;
  data : string;
}.

(** The fields read from the parsed BinaryInform response. *)
Record binary_info : Type := {
  binaryByteSize : Z;
  binaryDescription : string;
  binaryFilename : string;
  binaryLogicValue : string;
  binaryModelPath : string;
  binaryOSVersion : string;
  binaryVersion : string;
}.

(** What the stream handlers installed by [main] close over. *)
Record pipeline : Type := {
  outputFolder : string;
  totalSize : Z;
}.

(** [downloadedSize] and [currentFile] of the download callback. *)
Record download_state : Type := {
  downloadedSize : Z;
  currentFile : string;
}.

(** The events the handlers are registered for: ["data"] on the response
    stream, ["entry"] on the archive parser, ["finish"] on the write stream
    of an entry. *)
Inductive stream_event : Type :=
  | Data (buffer : list Byte.byte)
  | Entry (path : string)
  | Finish (path : string).

Definition dq : string := String (ascii_of_nat 34) EmptyString.

(** The placeholder header of the nonce request:
    FUS nonce=.., signature=.., nc=.., type=.., realm=.., newauth=1 with
    every value double-quoted. *)
Definition placeholder_authorization : string :=
  "FUS nonce=" +:+ dq +:+ dq +:+ ", signature=" +:+ dq +:+ dq +:+
  ", nc=" +:+ dq +:+ dq +:+ ", type=" +:+ dq +:+ dq +:+
  ", realm=" +:+ dq +:+ dq +:+ ", newauth=" +:+ dq +:+ "1" +:+ dq.

(** [`${pda}/${csc}/${modem !== "" ? modem : pda}/${pda}`] *)
Definition informVersion (v : version_triple) : string :=
  tpl (pda v) +:+ "/" +:+ tpl (csc v) +:+ "/" +:+
  tpl (if strict_neq (modem v) (JString "") then modem v else pda v) +:+ "/" +:+
  tpl (pda v).

(** [responseHeaders["set-cookie"]?.find(...)?.split(";")[0]] *)
Definition sessionID (responseHeaders : response_headers) : option string :=
  cookies ← set_cookie responseHeaders;
  cookie ← List.find (λ cookie, startsWith cookie "JSESSIONID") cookies;
  head (split ";" cookie).

(** [headers.Authorization] *)
Definition authorization (s : session) : option string :=
  headers s !! "Authorization".

(** The number of bytes the ["data"] events of a stream deliver. *)
Fixpoint received (events : list stream_event) : Z :=
  match events with
  | [] => 0
  | Data buffer :: events => Z.of_nat (length buffer) + received events
  | _ :: events => received events
  end.

(** [`https://fota-cloud-dn.ospserver.net/firmware/${region}/${model}/version.xml`] *)
Definition manifest_url (region : string) (model : jsval) : string :=
  "https://fota-cloud-dn.ospserver.net/firmware/" +:+ region +:+ "/"
  +:+ tpl model +:+ "/version.xml".

Definition manifest_request (region : string) (model : jsval) : request :=
  {| method := "GET"; req_url := manifest_url region model;
     req_body := NoBody; req_headers := ∅ |}.

(** [const [pda, csc, modem] = latest.split("/")] *)
Definition triple_of (latest : string) : version_triple :=
  let parts := split "/" latest in
  {| pda := index parts 0; csc := index parts 1; modem := index parts 2 |}.

Section Program.
(** [handleAuthRotation] of utils/authUtils: from the response headers to
    [{ Authorization, nonce }]. *)
Variable handleAuthRotation : response_headers → string * nonce_pair.
(** [axios.get] of the manifest followed by
    [xmlParse(res.data).versioninfo.firmware.version.latest]. *)
Variable manifest_latest : string → outcome string.
(** [axios.post] and the streaming [axios.get] of the distribution service. *)
Variable http : request → outcome response.
(** [xmlParse] of the BinaryInform response and the reads of its fields. *)
Variable parse_inform : string → outcome binary_info.
(** [getDecryptionKey] of utils/msgUtils, applied to the version and the
    logic value, and [crypto.createDecipheriv] applied to its key. *)
Variable getDecryptionKey : string → string → outcome (list Byte.byte).
Variable createDecipheriv : list Byte.byte → outcome unit.
Variable cwd : string.
Variable path_join : string → string → string.
Variable path_basename : string → string.

Definition getLatestVersion (region : string) (model : jsval) : M version_triple :=
  run perform (HttpRequest (manifest_request region model)) in
  let* latest := await (manifest_latest (manifest_url region model)) in
  ret (triple_of latest).

Definition handleHeaders (responseHeaders : response_headers) (s : session) : session :=
  let s :=
    match nonce_header responseHeaders with
    | Some _ =>
        let '(Authorization, newNonce) := handleAuthRotation responseHeaders in
        {| nonce := newNonce;
           headers := <["Authorization" := Authorization]> (headers s) |}
    | None => s
    end in
  match sessionID responseHeaders with
  | Some sessionID =>
      {| nonce := nonce s; headers := <["Cookie" := sessionID]> (headers s) |}
  | None => s
  end.

Definition send (r : request) : M response :=
  run perform (HttpRequest r) in await (http r).

(** [{ ...headers, Accept: "application/xml", "Content-Type": "application/xml" }] *)
Definition xml_headers (headers : gmap string string) : gmap string string :=
  <["Content-Type" := "application/xml"]> (<["Accept" := "application/xml"]> headers).

Definition initial_session : session :=
  {| nonce := {| encrypted := ""; decrypted := "" |};
     headers := {["User-Agent" := "Kies2.0_FUS"]} |}.

(** The session once [handleHeaders] has seen [responses], oldest first. *)
Definition session_after (responses : list response) : session :=
  foldl (λ s res, handleHeaders (res_headers res) s) initial_session responses.

Definition nonce_request : request :=
  {| method := "POST";
     req_url := "https://neofussvr.sslcs.cdngc.net/NF_DownloadGenerateNonce.do";
     req_body := EmptyBody;
     req_headers := <["Accept" := "application/xml"]>
                    (<["User-Agent" := "Kies2.0_FUS"]>
                    {["Authorization" := placeholder_authorization]}) |}.

Definition inform_request (v : version_triple) (region : string)
  (processedModel : jsval) (s : session) : request :=
  {| method := "POST";
     req_url := "https://neofussvr.sslcs.cdngc.net/NF_DownloadBinaryInform.do";
     req_body := BinaryInformMsg (informVersion v) region processedModel
                                 (decrypted (nonce s));
     req_headers := xml_headers (headers s) |}.

Definition init_request (info : binary_info) (s : session) : request :=
  {| method := "POST";
     req_url := "https://neofussvr.sslcs.cdngc.net/NF_DownloadBinaryInitForMass.do";
     req_body := BinaryInitMsg (binaryFilename info) (decrypted (nonce s));
     req_headers := xml_headers (headers s) |}.

Definition download_request (info : binary_info) (s : session) : request :=
  {| method := "GET";
     req_url := "http://cloud-neofussvr.sslcs.cdngc.net/NF_DownloadBinaryForMass.do?file="
                +:+ binaryModelPath info +:+ binaryFilename info;
     req_body := NoBody;
     req_headers := headers s |}.

(** [main] up to the point where the stream handlers are installed; it
    resolves with what they close over. *)
Definition main (region model : string) : M pipeline :=
  let modelInfo := transformModel model in
  let processedModel := transformed modelInfo in
  let* v := getLatestVersion region processedModel in
  let s := initial_session in
  let* res := send nonce_request in
  let s := handleHeaders (res_headers res) s in
  let* res := send (inform_request v region processedModel s) in
  let s := handleHeaders (res_headers res) s in
  let* info := await (parse_inform (data res)) in
  let* decryptionKey :=
    await (getDecryptionKey (binaryVersion info) (binaryLogicValue info)) in
  let* res := send (init_request info s) in
  let s := handleHeaders (res_headers res) s in
  run await (createDecipheriv decryptionKey) in
  let* res := send (download_request info s) in
  let outputFolder := cwd +:+ "/" +:+ original modelInfo +:+ "_" +:+ region +:+ "/" in
  run perform (MkdirSync outputFolder) in
  run perform (ProgressBarStart (binaryByteSize info) 0) in
  ret {| outputFolder := outputFolder; totalSize := binaryByteSize info |}.

(** The answers [main] gets when every step before the download succeeds. *)
Record answers : Type := {
  latest : string;
  nonce_response : response;
  inform_response : response;
  info : binary_info;
  key : list Byte.byte;
  init_response : response;
  download_response : response;
}.

(** The sessions with which [main] builds its three signed requests. *)
Definition inform_session (a : answers) : session :=
  session_after [nonce_response a].
Definition init_session (a : answers) : session :=
  session_after [nonce_response a; inform_response a].
Definition download_session (a : answers) : session :=
  session_after [nonce_response a; inform_response a; init_response a].

(** The collaborators give the answers [a] to the steps of [main]. *)
Definition answered (region model : string) (a : answers) : Prop :=
  let pm := transformed (transformModel model) in
  manifest_latest (manifest_url region pm) = Return (latest a) ∧
  http nonce_request = Return (nonce_response a) ∧
  http (inform_request (triple_of (latest a)) region pm (inform_session a))
  = Return (inform_response a) ∧
  parse_inform (data (inform_response a)) = Return (info a) ∧
  getDecryptionKey (binaryVersion (info a)) (binaryLogicValue (info a)) = Return (key a) ∧
  http (init_request (info a) (init_session a)) = Return (init_response a) ∧
  createDecipheriv (key a) = Return tt ∧
  http (download_request (info a) (download_session a)) = Return (download_response a).

(** What [main] sends and does when it is answered with [a]. *)
Definition main_trace (region model : string) (a : answers) : list effect :=
  let pm := transformed (transformModel model) in
  [ HttpRequest (manifest_request region pm);
    HttpRequest nonce_request;
    HttpRequest (inform_request (triple_of (latest a)) region pm (inform_session a));
    HttpRequest (init_request (info a) (init_session a));
    HttpRequest (download_request (info a) (download_session a));
    MkdirSync (cwd +:+ "/" +:+ model +:+ "_" +:+ region +:+ "/");
    ProgressBarStart (binaryByteSize (info a)) 0 ].

(** One event delivered to the handlers of the download callback. *)
Definition on_event (p : pipeline) (st : download_state) (ev : stream_event)
  : M download_state :=
  match ev with
  | Data buffer =>
      let downloadedSize := (downloadedSize st + Z.of_nat (length buffer))%Z in
      run perform (ProgressBarUpdate downloadedSize (currentFile st)) in
      ret {| downloadedSize := downloadedSize; currentFile := currentFile st |}
  | Entry path =>
      let currentFile := slice0 18 path +:+ "..." in
      run perform (ProgressBarUpdate (downloadedSize st) currentFile) in
      run perform (CreateWriteStream (path_join (outputFolder p) path)) in
      ret {| downloadedSize := downloadedSize st; currentFile := currentFile |}
  | Finish _ =>
      if bool_decide (downloadedSize st = totalSize p) then process_exit 0
      else ret st
  end.

(** The handlers, fed the events they are registered for. *)
Fixpoint consume (p : pipeline) (st : download_state) (events : list stream_event)
  : M download_state :=
  match events with
  | [] => ret st
  | ev :: events =>
      let* st := on_event p st ev in
      consume p st events
  end.

Definition initial_download : download_state :=
  {| downloadedSize := 0; currentFile := "" |}.

(** What the streams of the download emit, in order: an event the code has
    a handler for, or ["error"] on one of the streams (the response, the
    decipher, the archive parser, an entry, the write stream of an entry).
    The code registers no ["error"] listener on any of them, and an
    ["error"] event without listener is thrown by the emitter: it ends the
    run as an uncaught exception with the emitter's message. *)
Inductive emitted : Type :=
  | Handled (ev : stream_event)
  | ErrorEvent (message : string).

Fixpoint deliver (p : pipeline) (st : download_state) (events : list emitted)
  : M download_state :=
  match events with
  | [] => ret st
  | Handled ev :: events =>
      let* st := on_event p st ev in
      deliver p st events
  | ErrorEvent message :: _ => throw message
  end.

(** The authenticated path: [main], then the events of the stream. *)
Definition authenticated (region model : string) (events : list stream_event)
  : M download_state :=
  let* p := main region model in
  consume p initial_download events.

(** The collaborators of the bypass path. *)
Variable existsSync : string → bool.
Variable axios_head : string → option DirectDownload.head_response.
Variable parseInt : string → jsnum.
Variable order : nat → list nat.
Variable path_dirname : string → string.
Variable axios_get : string → outcome unit.
Variable written : string → outcome unit.
Variable statSync_size : string → Z.
Variable getServer : option GofileUpload.server_response.
Variable post_upload : string → string → outcome GofileUpload.upload_response.
Variable toISOString : string.
(** [createUploadSummary] of utils/gofileUpload, applied to the upload
    result, the model, the region, the version and [originalModel]. *)
Variable createUploadSummary :
  GofileUpload.GofileUploadResult → jsval → string → jsval → option string → string.

Definition mainBypassDownload (region model outputDir : string) : M unit :=
  try_catch
    (let modelInfo := transformModel model in
     let processedModel := transformed modelInfo in
     let* v := getLatestVersion region processedModel in
     run (if existsSync outputDir then ret tt else perform (MkdirSync outputDir)) in
     let* downloadedFile :=
       DirectDownload.directDownloadWorkflow axios_head parseInt order path_join
         path_dirname existsSync axios_get written
         {| DirectDownload.model := processedModel;
            DirectDownload.region := region;
            DirectDownload.pda := pda v;
            DirectDownload.csc := csc v;
            DirectDownload.modem := modem v |}
         outputDir in
     let* uploadResult :=
       GofileUpload.uploadFirmwareToGofile existsSync statSync_size path_basename
         getServer post_upload toISOString downloadedFile in
     let summary :=
       createUploadSummary uploadResult processedModel region (pda v)
         (if wasTransformed modelInfo then Some (original modelInfo) else None) in
     let filename := path_basename downloadedFile in
     let summaryPath := path_join outputDir (filename +:+ "_upload_summary.txt") in
     perform (WriteFileSync summaryPath summary))
    (λ message,
       run perform (ConsoleError message) in
       process_exit 1).
End Program.

(** The argument [mainBypassDownload] passes to the workflow when the
    manifest answers [latest]. *)
Definition bypass_info (region model latest : string) : DirectDownload.DirectFirmwareInfo :=
  let v := triple_of latest in
  {| DirectDownload.model := transformed (transformModel model);
     DirectDownload.region := region;
     DirectDownload.pda := pda v;
     DirectDownload.csc := csc v;
     DirectDownload.modem := modem v |}.

(** The events of a stream the code has a handler for, in order. *)
Definition handled (events : list emitted) : list stream_event :=
  omap (λ e, match e with Handled ev => Some ev | ErrorEvent _ => None end) events.

(** The message of the first ["error"] event of a stream. *)
Fixpoint first_error (events : list emitted) : option string :=
  match events with
  | [] => None
  | Handled _ :: events => first_error events
  | ErrorEvent message :: _ => Some message
  end.

(** The paths of the entries announced by a stream, in order. *)
Definition entry_paths (events : list stream_event) : list string :=
  omap (λ ev, match ev with Entry path => Some path | _ => None end) events.

End Index.

(** ** utils/downloadBypass.ts *)

Module DownloadBypass.
Import JS Runtime.

Record FirmwareInfo : Type := {
  pda : string;
  csc : string;
  modem : string;
  model : string;
  region : string;
  filename : string;
  size : Z;
  downloadUrl : string;
}.

Definition createFirmwareInfo (model region pda csc modem binaryFilename : string)
  (binaryByteSize : Z) (binaryModelPath : string) : FirmwareInfo :=
  {| pda := pda; csc := csc; modem := modem; model := model; region := region;
     filename := binaryFilename;
     size := binaryByteSize;
     downloadUrl :=
       "http://cloud-neofussvr.sslcs.cdngc.net/NF_DownloadBinaryForMass.do?file="
       +:+ binaryModelPath +:+ binaryFilename |}.

(** The request of the first method. *)
Definition direct_request (firmwareInfo : FirmwareInfo) : request :=
  {| method := "GET";
     req_url := downloadUrl firmwareInfo;
     req_body := NoBody;
     req_headers :=
       <["Accept-Encoding" := "identity"]>
       (<["Accept" := "*/*"]>
       {["User-Agent" := "Mozilla/5.0 (Windows NT 10.0; Win64; x64) AppleWebKit/537.36"]}) |}.

(** The request of [downloadWithAlternativeAuth]. *)
Definition alternative_request (firmwareInfo : FirmwareInfo) : request :=
  {| method := "GET";
     req_url := replace "neofussvr.sslcs.cdngc.net" "cloud-neofussvr.sslcs.cdngc.net"
                  (downloadUrl firmwareInfo);
     req_body := NoBody;
     req_headers :=
       <["Accept" := "application/octet-stream"]> {["User-Agent" := "Kies2.0_FUS"]} |}.

Section Network.
(** The streaming GET: it throws when the request fails. *)
Variable axios_get : request → outcome unit.
(** The write stream on a path fed with the response to a request: it
    returns on ["finish"] and throws on ["error"]. *)
Variable written : request → string → outcome unit.

Definition downloadWithAlternativeAuth (firmwareInfo : FirmwareInfo) (outputPath : string)
  : M string :=
  let r := alternative_request firmwareInfo in
  run perform (HttpRequest r) in
  run await (axios_get r) in
  run perform (CreateWriteStream outputPath) in
  run await (written r outputPath) in
  ret outputPath.

(** The [try] block ends in [return new Promise(...)]: the promise of the
    writer is returned without [await], so its rejection is not caught. *)
Definition downloadFirmwareBypass (firmwareInfo : FirmwareInfo) (outputPath : string)
  : M string :=
  let r := direct_request firmwareInfo in
  run perform (HttpRequest r) in
  let* caught :=
    try_catch
      (run await (axios_get r) in
       run perform (CreateWriteStream outputPath) in
       ret None)
      (λ message,
         let* path :=
           try_catch
             (downloadWithAlternativeAuth firmwareInfo outputPath)
             (λ altMessage,
                throw ("All download methods failed. Last error: " +:+ altMessage)) in
         ret (Some path)) in
  match caught with
  | Some path => ret path
  | None =>
      run await (written r outputPath) in
      ret outputPath
  end.
End Network.

End DownloadBypass.

(** ** Concrete collaborators for the examples *)

Module Sample.
Import JS Runtime Index.

(** An instance of the collaborator [handleAuthRotation]: the header and
    the nonce pair are functions of the nonce header of the response. *)
Definition rotation (responseHeaders : response_headers) : string * nonce_pair :=
  let n := default "" (nonce_header responseHeaders) in
  ("FUS nonce=" +:+ n, {| encrypted := n; decrypted := "plain:" +:+ n |}).

Definition with_nonce (n : string) : response_headers :=
  {| nonce_header := Some n;
     set_cookie := Some ["JSESSIONID=0A1B2C; Path=/"];
     other_headers := ∅ |}.

Definition without_nonce : response_headers :=
  {| nonce_header := None; set_cookie := None; other_headers := ∅ |}.

(** A manifest whose latest field ends in a separator. *)
Definition manifest (url : string) : outcome string :=
  Return "S916BXXU1AWBD/S916BOXM1AWBD/".

Definition http (r : request) : outcome response :=
  Return {| res_headers := with_nonce "n1"; data := "" |}.

Definition getDecryptionKey (version logicValue : string) : outcome (list Byte.byte) :=
  Return (replicate 16 Byte.x00).

Definition createDecipheriv (key : list Byte.byte) : outcome unit := Return tt.

Definition parse_inform (data : string) : outcome binary_info :=
  Return {| binaryByteSize := 32;
            binaryDescription := "";
            binaryFilename := "SM-S916B_1_fac.zip.enc4";
            binaryLogicValue := "611oq0u820f7uv34";
            binaryModelPath := "/neofus/9/";
            binaryOSVersion := "T(Android 13)";
            binaryVersion := "S916BXXU1AWBD/S916BOXM1AWBD/S916BXXU1AWBD/S916BXXU1AWBD" |}.

Definition cwd : string := "/home/user".

Definition path_join (a b : string) : string := a +:+ b.

(** [main] with these collaborators. *)
Definition main : string → string → M pipeline :=
  Index.main rotation manifest http parse_inform getDecryptionKey createDecipheriv cwd.

(** The build of the example in the README. *)
Definition info : DirectDownload.DirectFirmwareInfo :=
  {| DirectDownload.model := JString "SM-F916N";
     DirectDownload.region := "KOO";
     DirectDownload.pda := JString "F916NTBU1ATJC";
     DirectDownload.csc := JString "F916NOKT1ATJC";
     DirectDownload.modem := JString "F916NKSU1ATJ7" |}.

(** The seventh candidate generated for [info]. *)
Definition seventh : string :=
  "http://cloud-neofussvr.sslcs.cdngc.net/NF_DownloadBinaryForMass.do?file="
  +:+ "/neofus/firmware/KOO/SM-F916N/"
  +:+ "SM-F916N_F916NTBU1ATJC_F916NOKT1ATJC_F916NKSU1ATJ7_HOME.tar.md5".

(** A host on which only [seventh] exists, with the given content length. *)
Definition head_only_seventh (content_length : string) (url : string)
  : option DirectDownload.head_response :=
  if decide (url = seventh) then
    Some {| DirectDownload.status := 200;
            DirectDownload.headers := {["content-length" := content_length]} |}
  else None.

(** [parseInt] on the strings of the examples. *)
Definition parseInt (s : string) : jsnum :=
  if decide (s = "2000000") then Num 2000000
  else if decide (s = "500000") then Num 500000
  else if decide (s = "0") then Num 0
  else NaN.

(** The manifest of the build of [info]. *)
Definition manifest_f916n (url : string) : outcome string :=
  Return "F916NTBU1ATJC/F916NOKT1ATJC/F916NKSU1ATJ7".

(** In every batch the probes settle in the order 5th, 3rd, 1st, 4th, 2nd. *)
Definition shuffled (batch : nat) : list nat := [4; 2; 0; 3; 1].

(** Two chunks of 64 KiB of a file of 10 MiB, handled 100 ms and 200 ms
    after the upload starts. *)
Definition two_chunks : list GofileUpload.tick :=
  [ {| GofileUpload.chunk_length := 65536; GofileUpload.now := 100 |};
    {| GofileUpload.chunk_length := 65536; GofileUpload.now := 200 |} ].

(** A download of 32 bytes holding one entry, and the same stream cut
    after the first 16 bytes. *)
Definition expected : pipeline :=
  {| outputFolder := "/home/user/SM-F916N_KOO/"; totalSize := 32 |}.

Definition full_stream : list stream_event :=
  [ Data (replicate 16 Byte.x00);
    Entry "BL_F916NTBU1ATJC_CL19952383.tar.md5";
    Data (replicate 16 Byte.x00);
    Finish "BL_F916NTBU1ATJC_CL19952383.tar.md5" ].

Definition truncated_stream : list stream_event :=
  [ Data (replicate 16 Byte.x00);
    Entry "BL_F916NTBU1ATJC_CL19952383.tar.md5";
    Finish "BL_F916NTBU1ATJC_CL19952383.tar.md5" ].

(** The data of an accepted upload; the host names no direct link. *)
Definition accepted_data : GofileUpload.upload_data :=
  {| GofileUpload.up_downloadPage := JString "https://gofile.io/d/Z19n9a";
     GofileUpload.up_directLink := JUndefined;
     GofileUpload.up_fileId := JString "7f3b2c" |}.

(** Three answers of the host to an upload: accepted, rejected with a
    message, and a status [ok] that comes without [data]. *)
Definition accepted : GofileUpload.upload_response :=
  AnObject {| GofileUpload.up_status := JString "ok";
              GofileUpload.up_message := JUndefined;
              GofileUpload.up_data := AnObject accepted_data |}.

Definition rejected : GofileUpload.upload_response :=
  AnObject {| GofileUpload.up_status := JString "error-limit";
              GofileUpload.up_message := JString "quota exceeded";
              GofileUpload.up_data := Nullish Undefined |}.

Definition ok_without_data : GofileUpload.upload_response :=
  AnObject {| GofileUpload.up_status := JString "ok";
              GofileUpload.up_message := JUndefined;
              GofileUpload.up_data := Nullish Undefined |}.

(** An answer to the server lookup with status [ok] and an empty [data]. *)
Definition lookup_without_server : GofileUpload.server_response :=
  AnObject {| GofileUpload.sv_status := JString "ok";
              GofileUpload.sv_data := AnObject JUndefined |}.

(** The truncated stream, at the end of which the decipher emits an error. *)
Definition truncated_then_error : list emitted :=
  (Handled <$> truncated_stream) ++ [ErrorEvent "bad decrypt"].

(** An upload of a file of 10 MiB that exists, to a host that gives the
    answer [response]; the server lookup fails. *)
Definition upload (response : GofileUpload.upload_response) (filePath : string)
  : M GofileUpload.GofileUploadResult :=
  GofileUpload.uploadToGofile (λ _, true) (λ _, 10485760%Z) (λ _, "firmware.tar.md5")
    None (λ _ _, Return response) "2024-01-01T00:00:00.000Z" filePath.

(** The information [createFirmwareInfo] builds for the build of the README. *)
Definition firmwareInfo : DownloadBypass.FirmwareInfo :=
  DownloadBypass.createFirmwareInfo "SM-F916N" "KOO" "F916NTBU1ATJC" "F916NOKT1ATJC"
    "F916NKSU1ATJ7" "SM-F916N_10_20201028094404_saezf08xjk_fac.zip.enc4" 5669940496
    "/neofus/9/".

End Sample.

(** * Properties *)

(** ** The monad of effects *)

Section MonadFacts.
Import JS Runtime.

Lemma after_nil {A} (m : M A) : after [] m = m.
Proof. by destruct m. Qed.

Lemma after_after {A} (es es' : list effect) (m : M A) :
  after es (after es' m) = after (es ++ es') m.
Proof. unfold after. simpl. by rewrite app_assoc. Qed.

Lemma bind_return {A B} (es : list effect) (a : A) (k : A → M B) :
  bind (es, Return a) k = after es (k a).
Proof. done. Qed.

Lemma bind_perform {B} (e : effect) (k : unit → M B) :
  bind (perform e) k = after [e] (k tt).
Proof. done. Qed.

Lemma bind_await_return {A B} (a : A) (k : A → M B) :
  bind (await (Return a)) k = k a.
Proof. unfold await. by rewrite bind_return, after_nil. Qed.

Lemma bind_ret {A B} (a : A) (k : A → M B) : bind (ret a) k = k a.
Proof. apply (bind_await_return a k). Qed.

Lemma bind_after {A B} (es : list effect) (m : M A) (k : A → M B) :
  bind (after es m) k = after es (bind m k).
Proof.
  destruct m as [es' [a| | |]]; unfold after; simpl; try by rewrite ?app_nil_r.
  by rewrite app_assoc.
Qed.

Lemma bind_assoc {A B C} (m : M A) (f : A → M B) (g : B → M C) :
  bind (bind m f) g = bind m (λ a, bind (f a) g).
Proof.
  destruct m as [es [a| | |]]; try done. by rewrite !bind_return, bind_after.
Qed.

Lemma bind_inv_return {A B} (m : M A) (k : A → M B) es b :
  bind m k = (es, Return b) →
  ∃ es1 a es2, m = (es1, Return a) ∧ k a = (es2, Return b) ∧ es = es1 ++ es2.
Proof.
  destruct m as [es1 [a| | |]]; try done. rewrite bind_return.
  destruct (k a) as [es2 o] eqn:Hk. unfold after. simpl.
  intros [= <- ->]. by exists es1, a, es2.
Qed.

Lemma await_inv_return {A} (o : outcome A) es a :
  await o = (es, Return a) → o = Return a ∧ es = [].
Proof. unfold await. by intros [= <- ->]. Qed.
End MonadFacts.

(** ** modelTransformer.ts *)

Section ModelTransformerFacts.
Import JS ModelTransformer.

(** Outside the keys for which [k in MODEL_TRANSFORMATIONS] holds, the
    transformation is the identity. *)
Lemma transformModel_identity (table : gmap string string) (id : string) :
  requiresTransformation_with table id = false →
  transformModel_with table id
  = {| original := id; transformed := JString id; wasTransformed := false |}.
Proof.
  unfold requiresTransformation_with, has, transformModel_with, get.
  intros Hin. apply orb_false_elim in Hin as [Hown Hproto].
  apply bool_decide_eq_false in Hown, Hproto.
  destruct (table !! id) as [v|]; [by destruct Hown|].
  destruct (Object_prototype id) as [v|]; [by destruct Hproto|].
  simpl. unfold strict_neq. by rewrite bool_decide_eq_false_2 by (intros H; by apply H).
Qed.

(** An own key whose value is not empty is rewritten to that value. *)
Lemma transformModel_own (table : gmap string string) (id v : string) :
  table !! id = Some v → v ≠ "" →
  transformModel_with table id
  = {| original := id; transformed := JString v;
       wasTransformed := bool_decide (v ≠ id) |}.
Proof.
  intros Hown Hv. unfold transformModel_with, get, or_else. rewrite Hown. simpl.
  rewrite bool_decide_eq_true_2 by done. f_equal.
  unfold strict_neq. apply bool_decide_ext. split; intros H; congruence.
Qed.

(** C9. The claim: for every identifier that is not a key of the rewrite
    table, [transformModel] returns the identifier unchanged with
    [wasTransformed = false].  The code breaks it at the identifier
    [constructor]: it is not a key of the table, yet the lookup
    [MODEL_TRANSFORMATIONS[originalModel]] finds the inherited property of
    [Object.prototype], so [transformed] is a function (not the declared
    string) and [wasTransformed] is [true]. *)
Theorem transformModel_inherited_key :
  MODEL_TRANSFORMATIONS !! "constructor" = None ∧
  transformModel "constructor"
  = {| original := "constructor";
       transformed := JNativeFunction "Object";
       wasTransformed := true |} ∧
  Index.manifest_url "EUX" (transformed (transformModel "constructor"))
  = "https://fota-cloud-dn.ospserver.net/firmware/EUX/function Object() { [native code] }/version.xml".
Proof. repeat split; by vm_compute. Qed.

Example transformModel_SM_S906B :
  transformModel "SM-S906B"
  = {| original := "SM-S906B"; transformed := JString "SM-S916B";
       wasTransformed := true |}.
Proof. by vm_compute. Qed.

Example transformModel_SM_F916N :
  transformModel "SM-F916N"
  = {| original := "SM-F916N"; transformed := JString "SM-F916N";
       wasTransformed := false |}.
Proof. apply transformModel_identity. by vm_compute. Qed.
End ModelTransformerFacts.

(** ** index.ts: the version triple *)

Section VersionFacts.
Import JS Runtime Index.
Variable manifest_latest : string → outcome string.

Lemma getLatestVersion_return region model latest :
  manifest_latest (manifest_url region model) = Return latest →
  getLatestVersion manifest_latest region model
  = ([HttpRequest (manifest_request region model)], Return (triple_of latest)).
Proof.
  intros Hm. unfold getLatestVersion.
  by rewrite bind_perform, Hm, bind_await_return.
Qed.

(** A latest-version field of two components leaves [modem] undefined. *)
Lemma triple_of_two_components latest :
  length (split "/" latest) = 2 →
  modem (triple_of latest) = JUndefined ∧ modem (triple_of latest) ≠ JString "".
Proof.
  unfold triple_of. simpl. intros Hlen.
  destruct (split "/" latest) as [|a [|b [|c l]]]; by simplify_eq/=.
Qed.

(** A trailing separator gives the empty [modem]. *)
Example triple_of_trailing_separator :
  triple_of "T510XXU5CWA1/T510OXM5CWA1/"
  = {| pda := JString "T510XXU5CWA1"; csc := JString "T510OXM5CWA1";
       modem := JString "" |}.
Proof. reflexivity. Qed.
End VersionFacts.

(** C4. The claim: a latest-version field with only two components gives a
    triple whose [modem] is the empty string.  On the field
    [F916NTBU1ATJC/F916NOKT1ATJC] the destructuring binds [modem] to
    [undefined], and the version string of the BinaryInform request then
    carries the text [undefined] in the modem position. *)
Theorem getLatestVersion_two_components :
  let m := Index.getLatestVersion (λ _, JS.Return "F916NTBU1ATJC/F916NOKT1ATJC")
             "KOO" (JS.JString "SM-F916N") in
  Runtime.result m
  = JS.Return {| Index.pda := JS.JString "F916NTBU1ATJC";
                 Index.csc := JS.JString "F916NOKT1ATJC";
                 Index.modem := JS.JUndefined |}
  ∧ Index.informVersion (Index.triple_of "F916NTBU1ATJC/F916NOKT1ATJC")
    = "F916NTBU1ATJC/F916NOKT1ATJC/undefined/F916NTBU1ATJC".
Proof. split; reflexivity. Qed.

(** ** index.ts: the authenticated path *)

Section MainFacts.
Import JS Runtime ModelTransformer Index.
Variable handleAuthRotation : response_headers → string * nonce_pair.
Variable manifest_latest : string → outcome string.
Variable http : request → outcome response.
Variable parse_inform : string → outcome binary_info.
Variable getDecryptionKey : string → string → outcome (list Byte.byte).
Variable createDecipheriv : list Byte.byte → outcome unit.
Variable cwd : string.
Variable path_join : string → string → string.

Let main :=
  Index.main handleAuthRotation manifest_latest http parse_inform getDecryptionKey
    createDecipheriv cwd.
Let answered :=
  Index.answered handleAuthRotation manifest_latest http parse_inform getDecryptionKey
    createDecipheriv.
Let main_trace := Index.main_trace handleAuthRotation cwd.

Lemma bind_send {B} (r : request) (k : response → M B) :
  bind (send http r) k = after [HttpRequest r] (bind (await (http r)) k).
Proof. unfold send. by rewrite bind_assoc, bind_perform. Qed.

Lemma bind_send_return {B} (r : request) (res : response) (k : response → M B) :
  http r = Return res →
  bind (send http r) k = after [HttpRequest r] (k res).
Proof. intros H. by rewrite bind_send, H, bind_await_return. Qed.

Lemma send_inv_return (r : request) es res :
  send http r = (es, Return res) → http r = Return res ∧ es = [HttpRequest r].
Proof.
  unfold send. rewrite bind_perform. unfold await, after. simpl.
  by intros [= <- ->].
Qed.

(** The run of [main] when every step succeeds. *)
Lemma main_return region model a :
  answered region model a →
  main region model
  = (main_trace region model a,
     Return {| outputFolder := cwd +:+ "/" +:+ model +:+ "_" +:+ region +:+ "/";
               totalSize := binaryByteSize (info a) |}).
Proof.
  intros (Hm & H1 & H2 & Hp & Hk & H3 & Hd & H4). unfold main, Index.main.
  erewrite getLatestVersion_return by exact Hm. rewrite bind_return.
  rewrite (bind_send_return _ _ _ H1).
  rewrite (bind_send_return _ _ _ H2).
  rewrite Hp, bind_await_return, Hk, bind_await_return.
  rewrite (bind_send_return _ _ _ H3).
  rewrite Hd, bind_await_return.
  rewrite (bind_send_return _ _ _ H4).
  reflexivity.
Qed.

(** Conversely, a run of [main] that returns went through these steps. *)
Lemma main_inv_return region model es p :
  main region model = (es, Return p) → ∃ a, answered region model a.
Proof.
  unfold main, Index.main. intros H.
  apply bind_inv_return in H as (e0 & v & e0' & Hv & H & _).
  unfold getLatestVersion in Hv.
  apply bind_inv_return in Hv as (? & [] & ? & _ & Hv & _).
  apply bind_inv_return in Hv as (? & latest & ? & Hm & Hv & _).
  apply await_inv_return in Hm as [Hm _]. injection Hv as _ <-.
  apply bind_inv_return in H as (e1 & r1 & e1' & H1 & H & _).
  apply send_inv_return in H1 as [H1 _].
  apply bind_inv_return in H as (e2 & r2 & e2' & H2 & H & _).
  apply send_inv_return in H2 as [H2 _].
  apply bind_inv_return in H as (ep & info & ep' & Hp & H & _).
  apply await_inv_return in Hp as [Hp _].
  apply bind_inv_return in H as (ek & key & ek' & Hk & H & _).
  apply await_inv_return in Hk as [Hk _].
  apply bind_inv_return in H as (e3 & r3 & e3' & H3 & H & _).
  apply send_inv_return in H3 as [H3 _].
  apply bind_inv_return in H as (ed & [] & ed' & Hd & H & _).
  apply await_inv_return in Hd as [Hd _].
  apply bind_inv_return in H as (e4 & r4 & e4' & H4 & H & _).
  apply send_inv_return in H4 as [H4 _].
  by exists {| Index.latest := latest; nonce_response := r1; inform_response := r2;
               Index.info := info; Index.key := key; init_response := r3;
               download_response := r4 |}.
Qed.
End MainFacts.

Section AuthenticatedPathClaims.
Import JS Runtime ModelTransformer Index.
Variable handleAuthRotation : response_headers → string * nonce_pair.
Variable manifest_latest : string → outcome string.
Variable http : request → outcome response.
Variable parse_inform : string → outcome binary_info.
Variable getDecryptionKey : string → string → outcome (list Byte.byte).
Variable createDecipheriv : list Byte.byte → outcome unit.
Variable cwd : string.
Variable path_join : string → string → string.

Let main :=
  Index.main handleAuthRotation manifest_latest http parse_inform getDecryptionKey
    createDecipheriv cwd.
Let session_after := Index.session_after handleAuthRotation.

(** C5. When the resolved triple has an empty [modem], the version string
    of the BinaryInform request (the third request [main] sends) carries
    [pda] in the modem position. *)
Theorem empty_modem_sends_pda region model latest r1 :
  let pm := transformed (transformModel model) in
  let v := triple_of latest in
  manifest_latest (manifest_url region pm) = Return latest →
  modem v = JString "" →
  http nonce_request = Return r1 →
  effects (main region model) !! 2
  = Some (HttpRequest (inform_request v region pm (session_after [r1]))) ∧
  req_body (inform_request v region pm (session_after [r1]))
  = BinaryInformMsg
      (tpl (pda v) +:+ "/" +:+ tpl (csc v) +:+ "/" +:+ tpl (pda v) +:+ "/" +:+ tpl (pda v))
      region pm (decrypted (nonce (session_after [r1]))).
Proof.
  intros pm v Hm Hmodem H1. split.
  - unfold main, Index.main.
    erewrite getLatestVersion_return by exact Hm. rewrite bind_return.
    rewrite (bind_send_return _ _ _ _ H1), bind_send. reflexivity.
  - unfold inform_request, informVersion. cbn [req_body]. by rewrite Hmodem.
Qed.

(** C10. Whatever the model, a run of [main] that reaches the download
    names the output folder from the original identifier and the region and
    writes the entries of the archive below that folder, while the manifest
    and BinaryInform requests carry the transformed identifier (the other
    requests carry no identifier of the model). *)
Theorem output_folder_uses_original_model region model es p :
  main region model = (es, Return p) →
  let pm := transformed (transformModel model) in
  let folder := cwd +:+ "/" +:+ model +:+ "_" +:+ region +:+ "/" in
  outputFolder p = folder ∧
  (∃ a,
     es = [ HttpRequest (manifest_request region pm);
            HttpRequest nonce_request;
            HttpRequest (inform_request (triple_of (latest a)) region pm
                           (inform_session handleAuthRotation a));
            HttpRequest (init_request (info a) (init_session handleAuthRotation a));
            HttpRequest (download_request (info a)
                           (download_session handleAuthRotation a));
            MkdirSync folder;
            ProgressBarStart (binaryByteSize (info a)) 0 ]) ∧
  (∀ st path,
     effects (on_event path_join p st (Entry path))
     = [ ProgressBarUpdate (downloadedSize st) (slice0 18 path +:+ "...");
         CreateWriteStream (path_join folder path) ]).
Proof.
  intros Hmain pm folder.
  destruct (main_inv_return _ _ _ _ _ _ _ _ _ _ _ Hmain) as [a Ha].
  pose proof (main_return _ _ _ _ _ _ cwd _ _ _ Ha) as Hrun.
  fold main in Hrun. rewrite Hmain in Hrun. injection Hrun as -> ->.
  split; [done|]. split; [by exists a|].
  intros st path. reflexivity.
Qed.
End AuthenticatedPathClaims.

(** The model SM-S906B in region EUX, with a manifest whose latest field
    ends in a separator. *)
Lemma empty_modem_sends_pda_witness :
  Runtime.effects (Sample.main "EUX" "SM-S906B") !! 2
  = Some (Runtime.HttpRequest
            (Index.inform_request (Index.triple_of "S916BXXU1AWBD/S916BOXM1AWBD/") "EUX"
               (JS.JString "SM-S916B")
               (Index.session_after Sample.rotation
                  [{| Index.res_headers := Sample.with_nonce "n1"; Index.data := "" |}]))) ∧
  Runtime.req_body
    (Index.inform_request (Index.triple_of "S916BXXU1AWBD/S916BOXM1AWBD/") "EUX"
       (JS.JString "SM-S916B")
       (Index.session_after Sample.rotation
          [{| Index.res_headers := Sample.with_nonce "n1"; Index.data := "" |}]))
  = Runtime.BinaryInformMsg
      "S916BXXU1AWBD/S916BOXM1AWBD/S916BXXU1AWBD/S916BXXU1AWBD"
      "EUX" (JS.JString "SM-S916B") "plain:n1".
Proof.
  apply (empty_modem_sends_pda Sample.rotation Sample.manifest Sample.http
           Sample.parse_inform Sample.getDecryptionKey Sample.createDecipheriv
           Sample.cwd "EUX" "SM-S906B"
           "S916BXXU1AWBD/S916BOXM1AWBD/"
           {| Index.res_headers := Sample.with_nonce "n1"; Index.data := "" |});
    reflexivity.
Defined.

(** The model SM-S906B is processed as SM-S916B and extracted into
    SM-S906B_EUX. *)
Lemma output_folder_uses_original_model_witness :
  ∃ es p,
    Sample.main "EUX" "SM-S906B" = (es, JS.Return p) ∧
    Index.outputFolder p = "/home/user/SM-S906B_EUX/" ∧
    es !! 0 = Some (Runtime.HttpRequest
                      (Index.manifest_request "EUX" (JS.JString "SM-S916B"))).
Proof.
  eexists _, _. split; [reflexivity|].
  destruct (output_folder_uses_original_model Sample.rotation Sample.manifest
              Sample.http Sample.parse_inform Sample.getDecryptionKey
              Sample.createDecipheriv Sample.cwd Sample.path_join
              "EUX" "SM-S906B" _ _ eq_refl) as (Hfolder & _ & _).
  split; [exact Hfolder | reflexivity].
Defined.

(** ** index.ts: [handleHeaders] *)

Section SessionFacts.
Import JS Runtime Index.
Variable handleAuthRotation : response_headers → string * nonce_pair.

Let handleHeaders := Index.handleHeaders handleAuthRotation.

Lemma handleHeaders_nonce_absent responseHeaders s :
  nonce_header responseHeaders = None →
  nonce (handleHeaders responseHeaders s) = nonce s ∧
  authorization (handleHeaders responseHeaders s) = authorization s.
Proof.
  intros Hnone. unfold handleHeaders, Index.handleHeaders, authorization.
  rewrite Hnone. destruct (sessionID responseHeaders); simpl; [|done].
  by rewrite lookup_insert_ne.
Qed.

Lemma handleHeaders_nonce_present responseHeaders s n :
  nonce_header responseHeaders = Some n →
  nonce (handleHeaders responseHeaders s) = (handleAuthRotation responseHeaders).2 ∧
  authorization (handleHeaders responseHeaders s)
  = Some (handleAuthRotation responseHeaders).1.
Proof.
  intros Hsome. unfold handleHeaders, Index.handleHeaders, authorization.
  rewrite Hsome. destruct (handleAuthRotation responseHeaders) as [a newNonce].
  destruct (sessionID responseHeaders); simpl.
  - by rewrite lookup_insert_ne, lookup_insert_eq.
  - by rewrite lookup_insert_eq.
Qed.

(** Handling the same response a second time leaves the header as it is:
    the rotation is a function of the response. *)
Lemma handleHeaders_repeated responseHeaders s :
  authorization (handleHeaders responseHeaders (handleHeaders responseHeaders s))
  = authorization (handleHeaders responseHeaders s).
Proof.
  destruct (nonce_header responseHeaders) as [n|] eqn:Hn.
  - destruct (handleHeaders_nonce_present responseHeaders s n Hn) as [_ ->].
    by destruct (handleHeaders_nonce_present responseHeaders
                   (handleHeaders responseHeaders s) n Hn) as [_ ->].
  - by destruct (handleHeaders_nonce_absent responseHeaders
                   (handleHeaders responseHeaders s) Hn) as [_ ->].
Qed.

(** C3, as amended. The Authorization header is assigned exactly when the
    response carries a nonce header.  Without one, the nonce pair and the
    header stay as they were, so the header can change only when a nonce
    header is present.  With one, both become what [handleAuthRotation]
    computes from this very response, whatever the session held before; the
    new value may coincide with the old one. *)
Theorem handleHeaders_rotation responseHeaders s :
  let s' := handleHeaders responseHeaders s in
  match nonce_header responseHeaders with
  | None => nonce s' = nonce s ∧ authorization s' = authorization s
  | Some _ =>
      nonce s' = (handleAuthRotation responseHeaders).2 ∧
      authorization s' = Some (handleAuthRotation responseHeaders).1 ∧
      ∀ earlier, authorization (handleHeaders responseHeaders earlier) = authorization s'
  end ∧
  (authorization s' ≠ authorization s → is_Some (nonce_header responseHeaders)).
Proof.
  intros s'. subst s'. destruct (nonce_header responseHeaders) as [n|] eqn:Hn.
  - destruct (handleHeaders_nonce_present responseHeaders s n Hn) as [Hnonce Hauth].
    repeat split; try done.
    intros earlier. rewrite Hauth.
    by destruct (handleHeaders_nonce_present responseHeaders earlier n Hn) as [_ ->].
  - destruct (handleHeaders_nonce_absent responseHeaders s Hn) as [Hnonce Hauth].
    split; [done|]. intros Hne. by destruct Hne.
Qed.
End SessionFacts.

(** The first response of a session, carrying the nonce [n1]. *)
Lemma handleHeaders_rotation_witness :
  Index.authorization
    (Index.handleHeaders Sample.rotation (Sample.with_nonce "n1") Index.initial_session)
  = Some "FUS nonce=n1" ∧
  is_Some (Index.nonce_header (Sample.with_nonce "n1")).
Proof.
  destruct (handleHeaders_rotation Sample.rotation (Sample.with_nonce "n1")
              Index.initial_session) as [[_ [Hauth _]] Honly].
  split; [exact Hauth|]. apply Honly. by vm_compute.
Defined.

(** C3, as stated, fails: a response that repeats the nonce of the previous
    one carries a nonce header, and the Authorization header keeps its
    value. *)
Lemma handleHeaders_same_nonce_keeps_authorization :
  let s := Index.handleHeaders Sample.rotation (Sample.with_nonce "n1")
             Index.initial_session in
  ¬ (Index.authorization (Index.handleHeaders Sample.rotation (Sample.with_nonce "n1") s)
       ≠ Index.authorization s
     ↔ is_Some (Index.nonce_header (Sample.with_nonce "n1"))).
Proof.
  intros s [_ Hchanges]. apply Hchanges; [by eexists|].
  apply handleHeaders_repeated.
Qed.

(** ** index.ts: the handlers of the download stream *)

Section PipelineFacts.
Import JS Runtime Index.
Variable path_join : string → string → string.

Let on_event := Index.on_event path_join.
Let consume := Index.consume path_join.

Lemma received_nonneg events : (0 ≤ received events)%Z.
Proof. induction events as [|[buffer|path|path] events IH]; simpl; lia. Qed.

Lemma received_app pre post : received (pre ++ post) = (received pre + received post)%Z.
Proof. induction pre as [|[buffer|path|path] pre IH]; simpl; lia. Qed.

Lemma consume_cons p st ev events :
  consume p st (ev :: events) = bind (on_event p st ev) (λ st, consume p st events).
Proof. done. Qed.

Lemma consume_data p st buffer events :
  consume p st (Data buffer :: events)
  = let size := (downloadedSize st + Z.of_nat (length buffer))%Z in
    after [ProgressBarUpdate size (currentFile st)]
      (consume p {| downloadedSize := size; currentFile := currentFile st |} events).
Proof.
  rewrite consume_cons. unfold on_event, Index.on_event.
  by rewrite bind_assoc, bind_perform, bind_ret.
Qed.

Lemma consume_entry p st path events :
  consume p st (Entry path :: events)
  = let file := slice0 18 path +:+ "..." in
    after [ProgressBarUpdate (downloadedSize st) file;
           CreateWriteStream (path_join (outputFolder p) path)]
      (consume p {| downloadedSize := downloadedSize st; currentFile := file |} events).
Proof.
  rewrite consume_cons. unfold on_event, Index.on_event.
  rewrite bind_assoc, bind_perform, bind_assoc, bind_perform, bind_ret.
  by rewrite after_after.
Qed.

Lemma consume_finish p st path events :
  consume p st (Finish path :: events)
  = if bool_decide (downloadedSize st = totalSize p) then process_exit 0
    else consume p st events.
Proof.
  rewrite consume_cons. unfold on_event, Index.on_event.
  case_bool_decide; [done|]. by rewrite bind_ret.
Qed.

Lemma after_inv {A} es (m : M A) es' o :
  after es m = (es', o) → ∃ es'', m = (es'', o).
Proof. destruct m as [es'' o']. unfold after. simpl. intros [= _ ->]. by eexists. Qed.

Lemma result_after {A} es (m : M A) : result (after es m) = result m.
Proof. done. Qed.

(** The handlers end the process only from a ["finish"] handler that finds
    the counter equal to the expected size. *)
Lemma consume_exit p events : ∀ st es c,
  consume p st events = (es, Exit c) →
  c = 0%Z ∧
  ∃ pre path post,
    events = pre ++ Finish path :: post ∧
    (downloadedSize st + received pre)%Z = totalSize p.
Proof.
  induction events as [|ev events IH]; intros st es c; [done|].
  destruct ev as [buffer|path|path].
  - rewrite consume_data. cbv zeta. intros [es' Hrest]%after_inv.
    destruct (IH _ _ _ Hrest) as (-> & pre & path & post & -> & Hsize).
    split; [done|]. exists (Data buffer :: pre), path, post.
    split; [done|]. simpl in *. lia.
  - rewrite consume_entry. cbv zeta. intros [es' Hrest]%after_inv.
    destruct (IH _ _ _ Hrest) as (-> & pre & path' & post & -> & Hsize).
    split; [done|]. by exists (Entry path :: pre), path', post.
  - rewrite consume_finish. case_bool_decide as Hsize.
    + intros [= <- <-]. split; [done|]. exists [], path, events.
      split; [done|]. simpl. lia.
    + intros Hrest.
      destruct (IH _ _ _ Hrest) as (-> & pre & path' & post & -> & Hsize').
      split; [done|]. by exists (Finish path :: pre), path', post.
Qed.

(** While fewer bytes than expected have arrived the handlers only count. *)
Lemma consume_short p events : ∀ st,
  (downloadedSize st + received events < totalSize p)%Z →
  ∃ st', result (consume p st events) = Return st' ∧
         downloadedSize st' = (downloadedSize st + received events)%Z.
Proof.
  induction events as [|ev events IH]; intros st Hshort.
  { exists st. simpl. split; [done|lia]. }
  pose proof (received_nonneg events) as Hnonneg.
  destruct ev as [buffer|path|path]; simpl in Hshort.
  - rewrite consume_data. cbv zeta. rewrite result_after.
    edestruct (IH {| downloadedSize := downloadedSize st + Z.of_nat (length buffer);
                     currentFile := currentFile st |}) as (st' & Hres & Hsize);
      [simpl; lia|].
    exists st'. simpl in *. split; [done|lia].
  - rewrite consume_entry. cbv zeta. rewrite result_after.
    edestruct (IH {| downloadedSize := downloadedSize st;
                     currentFile := slice0 18 path +:+ "..." |}) as (st' & Hres & Hsize);
      [simpl; lia|].
    exists st'. simpl in *. by split.
  - rewrite consume_finish, bool_decide_eq_false_2 by lia. by apply IH.
Qed.

(** A stream is a run of handled events, followed by nothing or by a first
    ["error"] event and what comes after it. *)
Lemma emitted_split events :
  ∃ pre,
    (events = Handled <$> pre ∧ first_error events = None ∧ handled events = pre) ∨
    (∃ message post,
       events = (Handled <$> pre) ++ ErrorEvent message :: post ∧
       first_error events = Some message ∧
       handled events = pre ++ handled post).
Proof.
  induction events as [|[ev|message] events [pre IH]].
  - exists []. by left.
  - exists (ev :: pre). destruct IH as [(-> & Hnone & Hpre)|(m & post & -> & Hm & Hpre)].
    + left. simpl. unfold handled in *. simpl. by rewrite Hpre.
    + right. exists m, post. simpl. unfold handled in *. simpl. by rewrite Hpre.
  - exists []. right. by exists message, events.
Qed.

Lemma deliver_handled p pre rest : ∀ st,
  deliver path_join p st ((Handled <$> pre) ++ rest)
  = bind (consume p st pre) (λ st, deliver path_join p st rest).
Proof.
  induction pre as [|ev pre IH]; intros st.
  - change (deliver path_join p st rest
            = bind (ret st) (λ st, deliver path_join p st rest)).
    by rewrite bind_ret.
  - change (bind (on_event p st ev)
              (λ st, deliver path_join p st ((Handled <$> pre) ++ rest))
            = bind (bind (on_event p st ev) (λ st, consume p st pre))
                (λ st, deliver path_join p st rest)).
    destruct (on_event p st ev) as [es [st'| | |]]; try done.
    by rewrite !bind_return, bind_after, IH.
Qed.

(** C1, as amended. The run ends the process, with code 0, only from a
    ["finish"] event that finds the bytes received so far equal to the
    expected size.  On a stream that delivers fewer bytes than expected it
    never does so, and the code raises no failure of its own on the
    shortfall: when no stream of the pipeline emits an error the handlers
    return with the count of the bytes received; when one does, the run
    ends with that error, uncaught, and with the message of its emitter. *)
Theorem completion_only_at_expected_size p events :
  (∀ es c,
     deliver path_join p initial_download events = (es, Exit c) →
     c = 0%Z ∧
     ∃ pre path post,
       events = (Handled <$> pre) ++ Handled (Finish path) :: post ∧
       received pre = totalSize p) ∧
  ((received (handled events) < totalSize p)%Z →
   (∀ c, result (deliver path_join p initial_download events) ≠ Exit c) ∧
   match first_error events with
   | None =>
       ∃ st, result (deliver path_join p initial_download events) = Return st ∧
             downloadedSize st = received (handled events)
   | Some message =>
       result (deliver path_join p initial_download events) = Throw message
   end).
Proof.
  destruct (emitted_split events)
    as [pre [(-> & -> & ->)|(message & rest & -> & -> & ->)]].
  - pose proof (deliver_handled p pre [] initial_download) as Hrun.
    rewrite app_nil_r in Hrun. rewrite Hrun. clear Hrun. split.
    + intros es c Hexit.
      destruct (consume p initial_download pre) as [es' [st| | |c']] eqn:Hpre;
        try done.
      injection Hexit as <- <-.
      destruct (consume_exit _ _ _ _ _ Hpre) as (-> & pre' & path & post & -> & Hsize).
      split; [done|]. exists pre', path, (Handled <$> post).
      split; [by rewrite fmap_app|]. simpl in Hsize. lia.
    + intros Hshort.
      destruct (consume_short p pre initial_download) as (st & Hres & Hsize);
        [simpl; lia|].
      destruct (consume p initial_download pre) as [es' o]. simpl in Hres. subst o.
      split; [done|]. exists st. split; [done|]. simpl in Hsize. lia.
  - rewrite deliver_handled. split.
    + intros es c Hexit.
      destruct (consume p initial_download pre) as [es' [st| | |c']] eqn:Hpre;
        try done.
      injection Hexit as <- <-.
      destruct (consume_exit _ _ _ _ _ Hpre) as (-> & pre' & path & post & -> & Hsize).
      split; [done|].
      exists pre', path, ((Handled <$> post) ++ ErrorEvent message :: rest).
      split; [|simpl in Hsize; lia].
      by rewrite fmap_app, <- app_assoc.
    + rewrite received_app. intros Hshort.
      pose proof (received_nonneg (handled rest)) as Hnonneg.
      destruct (consume_short p pre initial_download) as (st & Hres & _);
        [simpl; lia|].
      destruct (consume p initial_download pre) as [es' o]. simpl in Hres. subst o.
      by split.
Qed.
End PipelineFacts.

(** A complete stream exits at its last ["finish"]; the truncated one, at
    the end of which the decipher emits an error, ends with that error. *)
Lemma completion_only_at_expected_size_witness :
  (∃ pre path post,
     Index.Handled <$> Sample.full_stream
     = (Index.Handled <$> pre) ++ Index.Handled (Index.Finish path) :: post ∧
     Index.received pre = 32%Z) ∧
  Runtime.result (Index.deliver Sample.path_join Sample.expected
                    Index.initial_download Sample.truncated_then_error)
  = JS.Throw "bad decrypt".
Proof.
  split.
  - destruct (completion_only_at_expected_size Sample.path_join Sample.expected
                (Index.Handled <$> Sample.full_stream)) as [Hexit _].
    edestruct Hexit as (_ & pre & path & post & Hsplit & Hsize); [reflexivity|].
    by exists pre, path, post.
  - destruct (completion_only_at_expected_size Sample.path_join Sample.expected
                Sample.truncated_then_error) as [_ Hshort].
    destruct Hshort as [_ Hthrow]; [by vm_compute|]. exact Hthrow.
Defined.

(** C1, as stated, fails: the stream below delivers 16 of the 32 expected
    bytes and none of its streams emits an error; the run is the one of the
    handlers, which return without raising any failure. *)
Lemma truncated_stream_raises_nothing :
  (Index.received Sample.truncated_stream < Index.totalSize Sample.expected)%Z ∧
  Index.deliver Sample.path_join Sample.expected Index.initial_download
    (Index.Handled <$> Sample.truncated_stream)
  = Index.consume Sample.path_join Sample.expected Index.initial_download
      Sample.truncated_stream ∧
  Runtime.result (Index.consume Sample.path_join Sample.expected
                    Index.initial_download Sample.truncated_stream)
  = JS.Return {| Index.downloadedSize := 16;
                 Index.currentFile := "BL_F916NTBU1ATJC_C..." |} ∧
  ¬ ∃ message,
      Runtime.result (Index.consume Sample.path_join Sample.expected
                        Index.initial_download Sample.truncated_stream)
      = JS.Throw message.
Proof.
  split; [by vm_compute|]. split; [reflexivity|]. split; [reflexivity|].
  by intros [message Hthrow].
Qed.

(** ** gofileUpload.ts: the reports of an upload *)

Section UploadFacts.
Import GofileUpload.

Lemma speed_times_app (l1 l2 : list (Z * report)) :
  speed_times (l1 ++ l2) = speed_times l1 ++ speed_times l2.
Proof. apply omap_app. Qed.

Lemma progress_times_app (l1 l2 : list (Z * report)) :
  progress_times (l1 ++ l2) = progress_times l1 ++ progress_times l2.
Proof. apply omap_app. Qed.

(** What one chunk adds to the speed lines and to the progress lines. *)
Lemma on_data_step fileSize st c :
  let st' := on_data fileSize st c in
  let last_time := lastProgressTime (closure st) in
  progress_times (printed st') = progress_times (printed st) ++ [now c] ∧
  ((now c - last_time > 2000)%Z ∧
   speed_times (printed st') = speed_times (printed st) ++ [now c] ∧
   lastProgressTime (closure st') = now c
   ∨
   speed_times (printed st') = speed_times (printed st) ∧
   lastProgressTime (closure st') = last_time).
Proof.
  unfold on_data, onProgress. case_bool_decide as Hlate; simpl.
  - rewrite !speed_times_app, !progress_times_app. simpl.
    split; [done|]. by left.
  - rewrite !speed_times_app, !progress_times_app. simpl.
    rewrite ?app_nil_r. split; [done|]. by right.
Qed.

(** The invariant of the fold over the chunks. *)
Lemma upload_fold fileSize chunks : ∀ st,
  let st' := foldl (on_data fileSize) st chunks in
  progress_times (printed st') = progress_times (printed st) ++ (now <$> chunks) ∧
  ∃ new,
    speed_times (printed st') = speed_times (printed st) ++ new ∧
    spaced (lastProgressTime (closure st)) new ∧
    lastProgressTime (closure st') = default (lastProgressTime (closure st)) (last new).
Proof.
  induction chunks as [|c chunks IH]; intros st; simpl.
  { rewrite app_nil_r. split; [done|]. exists []. by rewrite app_nil_r. }
  destruct (IH (on_data fileSize st c)) as (Hprogress & new & Hspeed & Hspaced & Hlast).
  destruct (on_data_step fileSize st c) as [Hp [(Hgap & Hs & Ht) | (Hs & Ht)]].
  - split; [by rewrite Hprogress, Hp, <- app_assoc|].
    exists (now c :: new). rewrite Hspeed, Hs, <- app_assoc. split; [done|].
    rewrite Ht in Hspaced, Hlast. split; [simpl; split; [exact Hgap|exact Hspaced]|].
    rewrite Hlast. destruct new as [|z new]; [reflexivity|].
    rewrite last_cons_cons. destruct (last (z :: new)) eqn:Hz; [reflexivity|].
    by apply last_None in Hz.
  - split; [by rewrite Hprogress, Hp, <- app_assoc|].
    exists new. rewrite Hspeed, Hs. split; [done|].
    rewrite Ht in Hspaced, Hlast. by split.
Qed.

Lemma spaced_later prev times t : spaced prev times → t ∈ times → (t - prev > 2000)%Z.
Proof.
  revert prev. induction times as [|t' times IH]; intros prev; simpl.
  { by intros _ ?%elem_of_nil. }
  intros [Hgap Hrest] [->|Hin]%elem_of_cons; [done|].
  specialize (IH _ Hrest Hin). lia.
Qed.

Lemma filter_none {A} (P : A → Prop) `{∀ x, Decision (P x)} (l : list A) :
  (∀ x, x ∈ l → ¬ P x) → filter P l = [].
Proof.
  induction l as [|a l IH]; intros Hout; [done|].
  rewrite filter_cons_False by (apply Hout; by left).
  apply IH. intros x Hx. apply Hout. by right.
Qed.

(** Readings spaced by more than two seconds: at most one per window. *)
Lemma spaced_window prev times w : spaced prev times → count_in_window w times ≤ 1.
Proof.
  unfold count_in_window. revert prev.
  induction times as [|t times IH]; intros prev; simpl; [lia|].
  intros [Hgap Hrest]. rewrite filter_cons. case_decide as Hin.
  - simpl. enough (filter (λ t, in_window w t = true) times = []) as -> by (simpl; lia).
    apply filter_none. intros t' Hin' Hw'.
    pose proof (spaced_later _ _ _ Hrest Hin').
    unfold in_window in *. lia.
  - by apply (IH t).
Qed.

(** C8, as amended. Whatever the chunks and the clock, the speed line is
    printed at most once in every window of two seconds, and never in the
    two seconds after the start; the progress line is printed once for
    every chunk. *)
Theorem speed_report_throttled start fileSize chunks w :
  let lines := printed (upload_handlers start fileSize chunks) in
  count_in_window w (speed_times lines) ≤ 1 ∧
  spaced start (speed_times lines) ∧
  progress_times lines = now <$> chunks.
Proof.
  intros lines. subst lines. unfold upload_handlers.
  destruct (upload_fold fileSize chunks
              {| uploadedBytes := 0;
                 closure := {| lastProgressTime := start; lastUploadedBytes := 0 |};
                 printed := [] |}) as (Hprogress & new & Hspeed & Hspaced & _).
  simpl in *. rewrite Hspeed, Hprogress. split; [|done].
  by apply (spaced_window start).
Qed.

(** C8, as stated, fails: two chunks handled 100 ms apart print two
    progress lines in one window of two seconds. *)
Lemma progress_line_printed_per_chunk :
  let lines := printed (upload_handlers 0 10485760 Sample.two_chunks) in
  lines = [ (100%Z, ProgressLine 65536 10485760);
            (200%Z, ProgressLine 131072 10485760) ] ∧
  ¬ count_in_window 0 (lines.*1) ≤ 1.
Proof. split; [reflexivity|]. vm_compute. lia. Qed.
End UploadFacts.

(** ** directDownload.ts: the candidates *)

Section CandidateFacts.
Import JS DirectDownload.

Lemma foldl_push (f : string → string) (items acc : list string) :
  foldl (λ urls x, push urls (f x)) acc items = acc ++ (f <$> items).
Proof.
  revert acc. induction items as [|x items IH]; intros acc; simpl.
  - by rewrite app_nil_r.
  - rewrite IH. unfold push. by rewrite <- app_assoc.
Qed.

Lemma foldl_extend {A} (g : A → list string) (items : list A) (acc : list string) :
  foldl (λ urls x, urls ++ g x) acc items = acc ++ (items ≫= g).
Proof.
  revert acc. induction items as [|x items IH]; intros acc; simpl.
  - by rewrite app_nil_r.
  - rewrite IH. by rewrite <- app_assoc.
Qed.

Lemma foldl_ext {A B} (f g : A → B → A) (items : list B) (acc : A) :
  (∀ a b, f a b = g a b) → foldl f acc items = foldl g acc items.
Proof.
  intros Hfg. revert acc. induction items as [|x items IH]; intros acc; simpl; [done|].
  by rewrite Hfg, IH.
Qed.

(** The three loops enumerate the product, base URL first. *)
Lemma constructFirmwareUrls_product info :
  constructFirmwareUrls info
  = baseUrl ← baseUrls;
    pathPattern ← pathPatterns info;
    filename ← possibleFilenames info;
    [baseUrl +:+ pathPattern +:+ filename].
Proof.
  unfold constructFirmwareUrls.
  rewrite (foldl_ext _
    (λ urls baseUrl, urls ++
       (pathPattern ← pathPatterns info;
        filename ← possibleFilenames info;
        [baseUrl +:+ pathPattern +:+ filename]))).
  { by rewrite foldl_extend. }
  intros urls baseUrl.
  rewrite (foldl_ext _
    (λ urls pathPattern, urls ++
       (filename ← possibleFilenames info;
        [baseUrl +:+ pathPattern +:+ filename]))).
  { by rewrite foldl_extend. }
  intros urls' pathPattern. rewrite foldl_push. by f_equal.
Qed.

Lemma constructFirmwareUrls_length info : length (constructFirmwareUrls info) = 144.
Proof. reflexivity. Qed.

(** C7. For every input the candidates are the product of the 4 base URLs,
    the 6 path patterns and the 6 file names below, which are the templates
    of the source filled with the model, region, pda, csc and modem of the
    input: 144 of them, the base URL varying slowest and the file name
    fastest, so that the candidate built from base [i], pattern [j] and
    name [k] is at position [36 i + 6 j + k]. *)
Theorem constructFirmwareUrls_cartesian_product info :
  let model := tpl (model info) in
  let region := region info in
  let pda := tpl (pda info) in
  let csc := tpl (csc info) in
  let modem := tpl (modem info) in
  let bases :=
    [ "http://cloud-neofussvr.sslcs.cdngc.net/NF_DownloadBinaryForMass.do?file=";
      "https://cloud-neofussvr.sslcs.cdngc.net/NF_DownloadBinaryForMass.do?file=";
      "http://neofussvr.sslcs.cdngc.net/NF_DownloadBinaryForMass.do?file=";
      "https://neofussvr.sslcs.cdngc.net/NF_DownloadBinaryForMass.do?file=" ] in
  let patterns :=
    [ "/neofus/firmware/" +:+ region +:+ "/" +:+ model +:+ "/" +:+ pda +:+ "/";
      "/neofus/firmware/" +:+ region +:+ "/" +:+ model +:+ "/";
      "/firmware/" +:+ region +:+ "/" +:+ model +:+ "/" +:+ pda +:+ "/";
      "/firmware/" +:+ region +:+ "/" +:+ model +:+ "/";
      "/" +:+ region +:+ "/" +:+ model +:+ "/" +:+ pda +:+ "/";
      "/" +:+ region +:+ "/" +:+ model +:+ "/" ] in
  let names :=
    [ model +:+ "_" +:+ pda +:+ "_" +:+ csc +:+ "_" +:+ modem +:+ "_HOME.tar.md5";
      model +:+ "_" +:+ pda +:+ "_" +:+ csc +:+ "_" +:+ modem +:+ ".tar.md5";
      model +:+ "_" +:+ region +:+ "_" +:+ pda +:+ "_" +:+ csc +:+ "_" +:+ modem
        +:+ "_HOME.tar.md5";
      model +:+ "_" +:+ region +:+ "_" +:+ pda +:+ "_" +:+ csc +:+ "_" +:+ modem
        +:+ ".tar.md5";
      pda +:+ "_" +:+ csc +:+ "_" +:+ modem +:+ "_HOME.tar.md5";
      pda +:+ "_" +:+ csc +:+ "_" +:+ modem +:+ ".tar.md5" ] in
  constructFirmwareUrls info
  = (base ← bases; pattern ← patterns; name ← names; [base +:+ pattern +:+ name]) ∧
  length (constructFirmwareUrls info) = 144 ∧
  ∀ i j k base pattern name,
    bases !! i = Some base →
    patterns !! j = Some pattern →
    names !! k = Some name →
    constructFirmwareUrls info !! (36 * i + 6 * j + k)
    = Some (base +:+ pattern +:+ name).
Proof.
  intros model region pda csc modem bases patterns names.
  split; [apply constructFirmwareUrls_product|].
  split; [reflexivity|].
  intros i j k base pattern name Hi Hj Hk.
  destruct i as [|[|[|[|i]]]]; [..|done];
    (destruct j as [|[|[|[|[|[|j]]]]]]; [..|done]);
    (destruct k as [|[|[|[|[|[|k]]]]]]; [..|done]);
    injection Hi as <-; injection Hj as <-; injection Hk as <-; reflexivity.
Qed.
End CandidateFacts.

(** The first, the seventh and the last candidate of the example: bases 0,
    0 and 3, patterns 0, 1 and 5, names 0, 0 and 5. *)
Lemma constructFirmwareUrls_cartesian_product_witness :
  DirectDownload.constructFirmwareUrls Sample.info !! 0
  = Some ("http://cloud-neofussvr.sslcs.cdngc.net/NF_DownloadBinaryForMass.do?file="
          +:+ "/neofus/firmware/KOO/SM-F916N/F916NTBU1ATJC/"
          +:+ "SM-F916N_F916NTBU1ATJC_F916NOKT1ATJC_F916NKSU1ATJ7_HOME.tar.md5") ∧
  DirectDownload.constructFirmwareUrls Sample.info !! 6 = Some Sample.seventh ∧
  DirectDownload.constructFirmwareUrls Sample.info !! 143
  = Some ("https://neofussvr.sslcs.cdngc.net/NF_DownloadBinaryForMass.do?file="
          +:+ "/KOO/SM-F916N/"
          +:+ "F916NTBU1ATJC_F916NOKT1ATJC_F916NKSU1ATJ7.tar.md5").
Proof.
  destruct (constructFirmwareUrls_cartesian_product Sample.info) as (_ & _ & Hat).
  split; [apply (Hat 0 0 0); reflexivity|].
  split; [apply (Hat 0 1 0); reflexivity|].
  apply (Hat 3 5 5); reflexivity.
Defined.

(** ** directDownload.ts: the probe *)

Section PromiseFacts.
Import DirectDownload.
Context {A : Type}.
Variable promises : list A.

Let filled := DirectDownload.filled promises.

Lemma settle_length values j : length (settle promises values j) = length values.
Proof. unfold settle. destruct (promises !! j); [apply length_insert|done]. Qed.

Lemma settle_fills values i :
  i < length promises → length values = length promises →
  filled (settle promises values i) i.
Proof.
  intros Hi Hlen. destruct (lookup_lt_is_Some_2 promises i Hi) as [v Hv].
  exists v. split; [done|]. unfold settle. rewrite Hv.
  apply list_lookup_insert_eq. lia.
Qed.

Lemma settle_keeps values i j : filled values i → filled (settle promises values j) i.
Proof.
  intros (v & Hv & Hslot). exists v. split; [done|]. unfold settle.
  destruct (promises !! j) as [w|] eqn:Hw; [|done].
  destruct (decide (j = i)) as [->|Hne].
  - rewrite list_lookup_insert_eq by (by eapply lookup_lt_Some). congruence.
  - by rewrite list_lookup_insert_ne.
Qed.

Lemma settle_fold_length order : ∀ values,
  length (foldl (settle promises) values order) = length values.
Proof.
  induction order as [|j order IH]; intros values; simpl; [done|].
  by rewrite IH, settle_length.
Qed.

Lemma settle_fold_fills order i : ∀ values,
  i < length promises → length values = length promises →
  i ∈ order ∨ filled values i →
  filled (foldl (settle promises) values order) i.
Proof.
  induction order as [|j order IH]; intros values Hi Hlen Hin; simpl.
  { destruct Hin as [Hin|Hin]; [by apply elem_of_nil in Hin|done]. }
  apply IH; [done|by rewrite settle_length|].
  destruct Hin as [[->|Hin]%elem_of_cons|Hin].
  - right. by apply settle_fills.
  - by left.
  - right. by apply settle_keeps.
Qed.

(** Once every promise has settled, in whatever order, the combined
    promise resolves with the values in the order of the promises. *)
Lemma Promise_all_resolves order :
  (∀ i, i < length promises → i ∈ order) →
  Promise_all order promises = Some promises.
Proof.
  intros Hall. unfold Promise_all.
  assert (foldl (settle promises) (replicate (length promises) None) order
          = Some <$> promises) as ->.
  { apply list_eq_same_length with (length promises).
    - by rewrite length_fmap.
    - by rewrite settle_fold_length, length_replicate.
    - intros i x y Hi Hx Hy.
      destruct (settle_fold_fills order i (replicate (length promises) None))
        as (v & Hv & Hslot); [done|by rewrite length_replicate|by left; apply Hall|].
      rewrite list_lookup_fmap, Hv in Hy. simpl in Hy. congruence. }
  by apply mapM_fmap_Some.
Qed.
End PromiseFacts.

Section TestFacts.
Import JS Runtime DirectDownload.
Variable axios_head : string → option head_response.
Variable parseInt : string → jsnum.

Let testFirmwareUrl := DirectDownload.testFirmwareUrl axios_head parseInt.
Let probe_all := DirectDownload.probe_all axios_head parseInt.
Let first_hit := DirectDownload.first_hit axios_head parseInt.

Lemma first_plausible_app results results' :
  first_plausible (results ++ results')
  = match first_plausible results with
    | Some hit => Some hit
    | None => first_plausible results'
    end.
Proof.
  induction results as [|r results IH]; simpl; [done|].
  by destruct (plausible (probed_result r)).
Qed.

Lemma probe_all_app urls urls' : probe_all (urls ++ urls') = probe_all urls ++ probe_all urls'.
Proof. apply fmap_app. Qed.

(** What the test of the loop finds in a list of candidates. *)
Lemma first_plausible_Some urls hit :
  first_plausible (probe_all urls) = Some hit ↔ ∃ k, first_hit urls k hit.
Proof.
  unfold first_hit, DirectDownload.first_hit. fold testFirmwareUrl.
  induction urls as [|u urls IH]; simpl.
  { split; [done|]. by intros (k & Hk & _). }
  fold testFirmwareUrl. destruct (plausible (testFirmwareUrl u)) eqn:Hu.
  - split.
    + intros [= <-]. exists 0. simpl. repeat split; try done. lia.
    + intros (k & Hk & Hp & Hsize & Hname & Hfirst).
      destruct k as [|k].
      * simpl in Hk. injection Hk as ->. destruct hit. simpl in *. by subst.
      * specialize (Hfirst 0 u). simpl in Hfirst. rewrite Hfirst in Hu; [done|lia|done].
  - rewrite IH. split.
    + intros (k & Hk & Hp & Hsize & Hname & Hfirst). exists (S k).
      repeat split; try done. intros [|j] u' Hj; simpl.
      * by intros [= <-].
      * intros Hu'. apply (Hfirst j u'); [lia|done].
    + intros (k & Hk & Hp & Hsize & Hname & Hfirst).
      destruct k as [|k].
      * simpl in Hk. injection Hk as ->. congruence.
      * exists k. repeat split; try done.
        intros j u' Hj Hu'. apply (Hfirst (S j) u'); [lia|done].
Qed.

Lemma first_plausible_None urls :
  first_plausible (probe_all urls) = None ↔
  ∀ u, u ∈ urls → plausible (testFirmwareUrl u) = false.
Proof.
  induction urls as [|u urls IH]; simpl.
  { split; [|done]. by intros _ u ?%elem_of_nil. }
  fold testFirmwareUrl. destruct (plausible (testFirmwareUrl u)) eqn:Hu.
  - split; [done|]. intros Hall. rewrite Hall in Hu; [done|by left].
  - rewrite IH. split.
    + intros Hall u' [->|?]%elem_of_cons; [done|by apply Hall].
    + intros Hall u' Hu'. apply Hall. by right.
Qed.
End TestFacts.

Section ProbeFacts.
Import JS Runtime DirectDownload.
Variable axios_head : string → option head_response.
Variable parseInt : string → jsnum.
Variable order : nat → list nat.

Let testFirmwareUrl := DirectDownload.testFirmwareUrl axios_head parseInt.
Let probe_all := DirectDownload.probe_all axios_head parseInt.
Let search := DirectDownload.search axios_head parseInt order.
Let findAccessibleFirmwareUrl :=
  DirectDownload.findAccessibleFirmwareUrl axios_head parseInt order.
Let all_settle := DirectDownload.all_settle order.
Let first_hit := DirectDownload.first_hit axios_head parseInt.

Lemma search_unfold urls fuel i :
  search urls fuel i
  = if bool_decide (i < length urls) then
      match fuel with
      | O => Pending
      | S fuel =>
          match Promise_all (order (i / batchSize))
                  (probe_all (take batchSize (drop i urls))) with
          | None => Pending
          | Some results =>
              match first_plausible results with
              | Some hit => Return (Some hit)
              | None => search urls fuel (i + batchSize)
              end
          end
      end
    else Return None.
Proof. by destruct fuel. Qed.

(** The loop returns what the test finds first in the remaining candidates. *)
Lemma search_first_plausible urls : ∀ fuel b,
  all_settle (length urls) →
  length urls ≤ b * batchSize + fuel →
  search urls fuel (b * batchSize)
  = Return (first_plausible (probe_all (drop (b * batchSize) urls))).
Proof.
  induction fuel as [|fuel IH]; intros b Hsettle Hfuel; rewrite search_unfold.
  { rewrite bool_decide_eq_false_2 by lia. by rewrite drop_ge by lia. }
  case_bool_decide as Hi; [|by rewrite drop_ge by lia].
  rewrite Nat.div_mul by done.
  rewrite Promise_all_resolves; last first.
  { intros j Hj. unfold probe_all, DirectDownload.probe_all in Hj.
    rewrite length_fmap, length_take, length_drop in Hj.
    apply Hsettle; lia. }
  rewrite <- (take_drop batchSize (drop (b * batchSize) urls)) at 2.
  unfold probe_all. rewrite probe_all_app, first_plausible_app.
  destruct (first_plausible _) as [hit|]; [done|].
  rewrite drop_drop.
  replace (b * batchSize + batchSize) with (S b * batchSize) by lia.
  apply IH; [done|]. unfold batchSize in *. lia.
Qed.

Lemma findAccessibleFirmwareUrl_first_plausible info :
  all_settle (length (constructFirmwareUrls info)) →
  findAccessibleFirmwareUrl info
  = Return (first_plausible (probe_all (constructFirmwareUrls info))).
Proof.
  intros Hsettle. unfold findAccessibleFirmwareUrl, DirectDownload.findAccessibleFirmwareUrl.
  cbv zeta. by apply (search_first_plausible _ _ 0).
Qed.

End ProbeFacts.

Section ProbeClaims.
Import JS Runtime DirectDownload.
Variable axios_head : string → option head_response.
Variable parseInt : string → jsnum.
Variable order : nat → list nat.

Let testFirmwareUrl := DirectDownload.testFirmwareUrl axios_head parseInt.
Let findAccessibleFirmwareUrl :=
  DirectDownload.findAccessibleFirmwareUrl axios_head parseInt order.
Let all_settle := DirectDownload.all_settle order.
Let first_hit := DirectDownload.first_hit axios_head parseInt.

(** The test of the loop: accessible, with a size strictly above 1000000. *)
Lemma plausible_spec (r : probe) :
  plausible r = true ↔
  accessible r = true ∧
  ∃ n, size r = Some n ∧
       match n with
       | Num z => (1000000 < z)%Z
       | Infinity negative => negative = false
       | NaN => False
       end.
Proof.
  unfold plausible. destruct (accessible r), (size r) as [[|z|[]]|]; simpl;
    try (split; [done|]; intros [? (n & ? & ?)]; by simplify_eq).
  - rewrite andb_true_iff, !bool_decide_eq_true. split.
    + intros [_ Hz]. split; [done|]. by exists (Num z).
    + intros [_ (n & [= <-] & Hz)]. split; [lia|done].
  - split; [|done]. intros _. split; [done|]. by exists (Infinity false).
Qed.

End ProbeClaims.


(** ** index.ts: the bypass path *)

Section BypassClaims.
Import JS Runtime ModelTransformer.
Variable manifest_latest : string → outcome string.
Variable path_join : string → string → string.
Variable path_basename : string → string.
Variable existsSync : string → bool.
Variable axios_head : string → option DirectDownload.head_response.
Variable parseInt : string → jsnum.
Variable order : nat → list nat.
Variable path_dirname : string → string.
Variable axios_get : string → outcome unit.
Variable written : string → outcome unit.
Variable statSync_size : string → Z.
Variable getServer : option GofileUpload.server_response.
Variable post_upload : string → string → outcome GofileUpload.upload_response.
Variable toISOString : string.
Variable createUploadSummary :
  GofileUpload.GofileUploadResult → jsval → string → jsval → option string → string.

Let testFirmwareUrl := DirectDownload.testFirmwareUrl axios_head parseInt.
Let findAccessibleFirmwareUrl :=
  DirectDownload.findAccessibleFirmwareUrl axios_head parseInt order.
Let directDownloadWorkflow :=
  DirectDownload.directDownloadWorkflow axios_head parseInt order path_join
    path_dirname existsSync axios_get written.
Let mainBypassDownload :=
  Index.mainBypassDownload manifest_latest path_join path_basename existsSync
    axios_head parseInt order path_dirname axios_get written statSync_size getServer
    post_upload toISOString createUploadSummary.

(** C6. On the bypass path, when no candidate of the generated set passes
    the test of the probe, the probe returns [null], the workflow throws
    the error that reports it, and [mainBypassDownload] ends the process
    with code 1 after printing that error: no upload is announced or sent.
    An accessible candidate of 500000 bytes does not pass the test. *)
Theorem no_candidate_no_upload region model outputDir latest :
  let info := Index.bypass_info region model latest in
  manifest_latest (Index.manifest_url region (transformed (transformModel model)))
  = Return latest →
  DirectDownload.all_settle order (length (DirectDownload.constructFirmwareUrls info)) →
  (∀ u, u ∈ DirectDownload.constructFirmwareUrls info →
        DirectDownload.plausible (testFirmwareUrl u) = false) →
  findAccessibleFirmwareUrl info = Return None ∧
  directDownloadWorkflow info outputDir = ([], Throw DirectDownload.no_url_message) ∧
  mainBypassDownload region model outputDir
  = (HttpRequest (Index.manifest_request region (transformed (transformModel model)))
       :: (if existsSync outputDir then [] else [MkdirSync outputDir])
       ++ [ConsoleError DirectDownload.no_url_message; ProcessExit 1],
     Exit 1) ∧
  Forall no_upload (effects (mainBypassDownload region model outputDir)) ∧
  ∀ name, DirectDownload.plausible
            {| DirectDownload.accessible := true;
               DirectDownload.size := Some (Num 500000);
               DirectDownload.filename := name |} = false.
Proof.
  intros info Hm Hsettle Hnone.
  assert (findAccessibleFirmwareUrl info = Return None) as Hfind.
  { unfold findAccessibleFirmwareUrl.
    rewrite findAccessibleFirmwareUrl_first_plausible by done.
    f_equal. by apply first_plausible_None. }
  assert (directDownloadWorkflow info outputDir
          = ([], Throw DirectDownload.no_url_message)) as Hflow.
  { unfold directDownloadWorkflow, DirectDownload.directDownloadWorkflow.
    fold findAccessibleFirmwareUrl. by rewrite Hfind, bind_await_return. }
  assert (mainBypassDownload region model outputDir
          = (HttpRequest (Index.manifest_request region (transformed (transformModel model)))
               :: (if existsSync outputDir then [] else [MkdirSync outputDir])
               ++ [ConsoleError DirectDownload.no_url_message; ProcessExit 1],
             Exit 1)) as Hmain.
  { unfold mainBypassDownload, Index.mainBypassDownload.
    erewrite getLatestVersion_return by exact Hm. rewrite bind_return.
    fold (Index.bypass_info region model latest). fold info.
    fold directDownloadWorkflow. rewrite Hflow.
    by destruct (existsSync outputDir). }
  repeat split; try done.
  rewrite Hmain. simpl. constructor; [done|].
  destruct (existsSync outputDir); repeat constructor.
Qed.
End BypassClaims.

(** Only the seventh candidate exists, with 500000 bytes. *)
Lemma no_candidate_no_upload_witness :
  Index.mainBypassDownload Sample.manifest_f916n Sample.path_join (λ p, p)
    (λ _, false) (Sample.head_only_seventh "500000") Sample.parseInt Sample.shuffled
    (λ p, p) (λ _, JS.Return tt) (λ _, JS.Return tt) (λ _, 0%Z) None
    (λ _ _, JS.Pending) "" (λ _ _ _ _ _, "")
    "KOO" "SM-F916N" "./downloads"
  = ([ Runtime.HttpRequest (Index.manifest_request "KOO" (JS.JString "SM-F916N"));
       Runtime.MkdirSync "./downloads";
       Runtime.ConsoleError DirectDownload.no_url_message;
       Runtime.ProcessExit 1 ],
     JS.Exit 1).
Proof.
  refine (proj1 (proj2 (proj2
    (no_candidate_no_upload Sample.manifest_f916n Sample.path_join (λ p, p)
       (λ _, false) (Sample.head_only_seventh "500000") Sample.parseInt Sample.shuffled
       (λ p, p) (λ _, JS.Return tt) (λ _, JS.Return tt) (λ _, 0%Z) None
    (λ _ _, JS.Pending) "" (λ _ _ _ _ _, "")
       "KOO" "SM-F916N" "./downloads" "F916NTBU1ATJC/F916NOKT1ATJC/F916NKSU1ATJ7"
       eq_refl _ _)))).
  - intros b j Hj _. unfold Sample.shuffled, DirectDownload.batchSize in *.
    do 5 (destruct j as [|j]; [set_solver|]). lia.
  - apply Forall_forall. apply (bool_decide_unpack _). vm_compute. exact I.
Defined.

(** * Further properties of the code *)

(** ** modelTransformer.ts *)

Section TransformationTable.
Import JS ModelTransformer.

Lemma MODEL_TRANSFORMATIONS_entries : MODEL_TRANSFORMATIONS = list_to_map entries.
Proof. reflexivity. Qed.

Lemma lookup_MODEL_TRANSFORMATIONS id v :
  MODEL_TRANSFORMATIONS !! id = Some v ↔ (id, v) ∈ entries.
Proof.
  rewrite MODEL_TRANSFORMATIONS_entries. split.
  - apply elem_of_list_to_map_2.
  - apply elem_of_list_to_map_1. apply (bool_decide_unpack _). by vm_compute.
Qed.

Lemma Object_prototype_not_string k s : Object_prototype k ≠ Some (JString s).
Proof. unfold Object_prototype. by repeat case_decide. Qed.

Lemma Object_prototype_truthy k v : Object_prototype k = Some v → truthy v = true.
Proof. unfold Object_prototype. repeat case_decide; by intros [= <-]. Qed.

(** The three ways a lookup in the table ends. *)
Lemma transformModel_cases id :
  (∃ v, (id, v) ∈ entries ∧
        transformModel id
        = {| original := id; transformed := JString v; wasTransformed := true |}) ∨
  (∃ v, MODEL_TRANSFORMATIONS !! id = None ∧ Object_prototype id = Some v ∧
        (∀ s, v ≠ JString s) ∧
        transformModel id
        = {| original := id; transformed := v; wasTransformed := true |}) ∨
  (requiresTransformation id = false ∧
   transformModel id
   = {| original := id; transformed := JString id; wasTransformed := false |}).
Proof.
  destruct (MODEL_TRANSFORMATIONS !! id) as [v|] eqn:Hown.
  - left. exists v. apply lookup_MODEL_TRANSFORMATIONS in Hown as Hin. split; [done|].
    unfold entries in Hin.
    repeat (apply elem_of_cons in Hin as [[= -> ->]|Hin]; [by vm_compute|]).
    by apply elem_of_nil in Hin.
  - destruct (Object_prototype id) as [v|] eqn:Hproto.
    + right; left. exists v. repeat split; try done.
      { intros s ->. by apply Object_prototype_not_string in Hproto. }
      unfold transformModel, transformModel_with, get, or_else.
      rewrite Hown, Hproto. simpl.
      rewrite (Object_prototype_truthy _ _ Hproto). f_equal.
      unfold strict_neq. apply bool_decide_eq_true_2.
      intros ->. by apply Object_prototype_not_string in Hproto.
    + right; right.
      assert (requiresTransformation id = false) as Hreq.
      { unfold requiresTransformation, requiresTransformation_with, has.
        rewrite Hown, Hproto. apply orb_false_intro; apply bool_decide_eq_false_2;
          by intros [? ?]. }
      split; [done|]. by apply transformModel_identity.
Qed.

(** X1. Rewriting is idempotent on identifiers: an identifier obtained from
    [transformModel] is itself left unchanged by [transformModel]. *)
Theorem transformModel_idempotent id s :
  transformed (transformModel id) = JString s →
  transformModel s
  = {| original := s; transformed := JString s; wasTransformed := false |}.
Proof.
  destruct (transformModel_cases id)
    as [(v & Hin & ->)|[(v & _ & _ & Hv & ->)|(Hreq & ->)]]; simpl.
  - intros [= <-]. unfold entries in Hin.
    repeat (apply elem_of_cons in Hin as [[= -> ->]|Hin]; [by vm_compute|]).
    by apply elem_of_nil in Hin.
  - intros ->. by destruct (Hv s).
  - intros [= <-]. by apply transformModel_identity.
Qed.

(** X2. [wasTransformed] is set exactly for the identifiers for which
    [requiresTransformation] answers [true]. *)
Theorem wasTransformed_requiresTransformation id :
  wasTransformed (transformModel id) = requiresTransformation id.
Proof.
  destruct (transformModel_cases id)
    as [(v & Hin & ->)|[(v & Hown & Hproto & _ & ->)|(Hreq & ->)]]; simpl.
  - apply lookup_MODEL_TRANSFORMATIONS in Hin.
    unfold requiresTransformation, requiresTransformation_with, has. rewrite Hin.
    by rewrite bool_decide_eq_true_2 by by eexists.
  - unfold requiresTransformation, requiresTransformation_with, has.
    rewrite Hown, Hproto. symmetry. apply orb_true_intro. right.
    apply bool_decide_eq_true_2. by eexists.
  - done.
Qed.

(** X3. [getSupportedTransformations] lists, in the order of the table, the
    four pairs [{from, to}] and exactly the pairs for which [transformModel]
    rewrites [from] to the identifier [to]. *)
Theorem getSupportedTransformations_complete t :
  length getSupportedTransformations = 4 ∧
  (t ∈ getSupportedTransformations ↔
   transformModel (from t)
   = {| original := from t; transformed := JString (to t); wasTransformed := true |}).
Proof.
  split; [reflexivity|]. destruct t as [f v]. simpl. split.
  - unfold getSupportedTransformations, entries. simpl. intros Hin.
    repeat (apply elem_of_cons in Hin as [[= -> ->]|Hin]; [by vm_compute|]).
    by apply elem_of_nil in Hin.
  - intros Ht.
    destruct (transformModel_cases f)
      as [(v' & Hin & Ht')|[(v' & _ & _ & Hv & Ht')|(_ & Ht')]];
      rewrite Ht' in Ht; simplify_eq.
    + unfold getSupportedTransformations. apply list_elem_of_fmap.
      by exists (f, v).
    + by destruct (Hv v).
Qed.
End TransformationTable.

(** ** Strings *)

Section StringFacts.
Import JS.

Lemma split_nonempty sep s : split sep s ≠ [].
Proof.
  destruct s as [|c s]; simpl; [done|].
  destruct (Ascii.eqb c sep); [done|]. by destruct (split sep s).
Qed.

(** Joining the pieces with the separator gives the string back. *)
Lemma join_split sep s : join (String sep "") (split sep s) = s.
Proof.
  induction s as [|c s IH]; simpl; [done|].
  destruct (Ascii.eqb c sep) eqn:Hc.
  - apply Ascii.eqb_eq in Hc as ->.
    destruct (split sep s) as [|w ws] eqn:Hs; [by apply split_nonempty in Hs|].
    simpl in *. by rewrite IH.
  - destruct (split sep s) as [|w ws] eqn:Hs; [by apply split_nonempty in Hs|].
    simpl in *. destruct ws; simpl; by rewrite <- IH.
Qed.

(** No piece holds the separator. *)
Lemma split_occurs sep s w : w ∈ split sep s → occurs sep w = false.
Proof.
  revert w. induction s as [|c s IH]; intros w; simpl.
  { by intros ->%list_elem_of_singleton. }
  destruct (Ascii.eqb c sep) eqn:Hc.
  - intros [->|Hw]%elem_of_cons; [done|by apply IH].
  - destruct (split sep s) as [|w' ws] eqn:Hs; [by apply split_nonempty in Hs|].
    intros [->|Hw]%elem_of_cons.
    + simpl. rewrite Hc. apply IH. by left.
    + apply IH. by right.
Qed.

(** The first piece is the string up to its first separator. *)
Lemma split_head sep s w :
  head (split sep s) = Some w →
  occurs sep w = false ∧ (s = w ∨ ∃ rest, s = w +:+ String sep rest).
Proof.
  intros Hw. destruct (split sep s) as [|w' ws] eqn:Hs; simplify_eq/=.
  split.
  - apply (split_occurs sep s). rewrite Hs. by left.
  - pose proof (join_split sep s) as Hjoin. rewrite Hs in Hjoin. simpl in Hjoin.
    destruct ws; [by left|]. right. by eexists.
Qed.

(** A prefix without the separator of a string is a prefix of its first
    piece. *)
Lemma prefix_first_piece sep p w rest :
  occurs sep p = false →
  String.prefix p (w +:+ String sep rest) = true →
  String.prefix p w = true.
Proof.
  revert w. induction p as [|a p IH]; intros w Hp; [by destruct w|].
  simpl in Hp. apply orb_false_elim in Hp as [Ha Hp].
  destruct w as [|b w]; simpl.
  - destruct (Ascii.ascii_dec a sep) as [->|Hne]; [by rewrite Ascii.eqb_refl in Ha|done].
  - destruct (Ascii.ascii_dec a b) as [->|Hne]; [|done]. by apply IH.
Qed.
End StringFacts.

(** ** index.ts: the session *)

Section SessionInvariants.
Import JS Runtime Index.
Variable handleAuthRotation : response_headers → string * nonce_pair.

Let handleHeaders := Index.handleHeaders handleAuthRotation.
Let session_after := Index.session_after handleAuthRotation.

(** The cookie kept from a response is the text before the first [;] of
    the first cookie that starts with JSESSIONID. *)
Lemma sessionID_shape responseHeaders sid :
  sessionID responseHeaders = Some sid →
  startsWith sid "JSESSIONID" = true ∧ occurs ";" sid = false ∧
  ∃ cookies cookie,
    set_cookie responseHeaders = Some cookies ∧ cookie ∈ cookies ∧
    (cookie = sid ∨ ∃ rest, cookie = sid +:+ String ";" rest).
Proof.
  unfold sessionID. destruct (set_cookie responseHeaders) as [cookies|]; [|done].
  simpl. destruct (List.find _ cookies) as [cookie|] eqn:Hfind; [|done]. simpl.
  intros Hhead. apply find_some in Hfind as [Hin Hstart].
  apply split_head in Hhead as [Hsid Hcookie]. split; [|split; [done|]].
  - unfold startsWith in *. destruct Hcookie as [->|[rest ->]]; [done|].
    by apply (prefix_first_piece ";" _ _ rest).
  - exists cookies, cookie. split; [done|]. split; [|done].
    by apply list_elem_of_In.
Qed.

Lemma sessionID_None responseHeaders :
  sessionID responseHeaders = None ↔
  ∀ cookies cookie,
    set_cookie responseHeaders = Some cookies → cookie ∈ cookies →
    startsWith cookie "JSESSIONID" = false.
Proof.
  unfold sessionID. destruct (set_cookie responseHeaders) as [cookies|]; simpl.
  - destruct (List.find _ cookies) as [cookie|] eqn:Hfind; simpl.
    + apply find_some in Hfind as [Hin Hstart]. split.
      * intros Hnone. destruct (split ";" cookie) eqn:Hs; [|done].
        by apply split_nonempty in Hs.
      * intros Hall. rewrite (Hall cookies cookie) in Hstart; [done|done|].
        by apply list_elem_of_In.
    + split; [|done]. intros _ ? cookie [= <-] Hin%list_elem_of_In.
      exact (find_none _ _ Hfind cookie Hin).
  - split; [|done]. by intros _ ? ? ?.
Qed.

Lemma handleHeaders_lookup responseHeaders s k :
  k ≠ "Authorization" → k ≠ "Cookie" →
  headers (handleHeaders responseHeaders s) !! k = headers s !! k.
Proof.
  intros Hauth Hcookie. unfold handleHeaders, Index.handleHeaders.
  destruct (nonce_header responseHeaders), (handleAuthRotation responseHeaders),
    (sessionID responseHeaders); simpl;
    by rewrite ?lookup_insert_ne by done.
Qed.

Lemma handleHeaders_cookie responseHeaders s :
  headers (handleHeaders responseHeaders s) !! "Cookie"
  = match sessionID responseHeaders with
    | Some sid => Some sid
    | None => headers s !! "Cookie"
    end.
Proof.
  unfold handleHeaders, Index.handleHeaders.
  destruct (nonce_header responseHeaders), (handleAuthRotation responseHeaders),
    (sessionID responseHeaders); simpl;
    by rewrite ?lookup_insert_eq, ?lookup_insert_ne by done.
Qed.

Lemma session_after_snoc responses res :
  session_after (responses ++ [res])
  = handleHeaders (res_headers res) (session_after responses).
Proof. unfold session_after, Index.session_after. by rewrite foldl_app. Qed.

(** X4. Whatever responses the session has seen, its headers are among
    User-Agent, Authorization and Cookie, and User-Agent is still
    [Kies2.0_FUS]. *)
Theorem session_headers_invariant responses :
  headers (session_after responses) !! "User-Agent" = Some "Kies2.0_FUS" ∧
  ∀ k, is_Some (headers (session_after responses) !! k) →
       k ∈ ["User-Agent"; "Authorization"; "Cookie"].
Proof.
  induction responses as [|res responses IH] using rev_ind.
  - split; [done|]. intros k [v Hk]. unfold session_after in Hk. simpl in Hk.
    apply lookup_singleton_Some in Hk as [<- _]. set_solver.
  - rewrite session_after_snoc. destruct IH as [Hagent Hkeys]. split.
    + by rewrite handleHeaders_lookup.
    + intros k Hk.
      destruct (decide (k = "Authorization")) as [->|Hauth]; [set_solver|].
      destruct (decide (k = "Cookie")) as [->|Hcookie]; [set_solver|].
      rewrite handleHeaders_lookup in Hk by done. by apply Hkeys.
Qed.

(** X5. Whatever responses the session has seen, the Cookie header, when
    there is one, is a bare session cookie: it starts with JSESSIONID and
    holds no [;], so no attribute of the set-cookie line is sent back. *)
Theorem session_cookie_shape responses :
  match headers (session_after responses) !! "Cookie" with
  | Some sid => startsWith sid "JSESSIONID" = true ∧ occurs ";" sid = false
  | None => True
  end.
Proof.
  induction responses as [|res responses IH] using rev_ind; [done|].
  rewrite session_after_snoc, handleHeaders_cookie.
  destruct (sessionID (res_headers res)) as [sid|] eqn:Hsid; [|done].
  by apply sessionID_shape in Hsid as (? & ? & _).
Qed.

(** X6. A response with no nonce header and no cookie that starts with
    JSESSIONID leaves the session exactly as it was. *)
Theorem handleHeaders_nothing_to_do responseHeaders s :
  nonce_header responseHeaders = None →
  (∀ cookies cookie,
     set_cookie responseHeaders = Some cookies → cookie ∈ cookies →
     startsWith cookie "JSESSIONID" = false) →
  handleHeaders responseHeaders s = s.
Proof.
  intros Hnonce Hcookies%sessionID_None.
  unfold handleHeaders, Index.handleHeaders. by rewrite Hnonce, Hcookies.
Qed.
End SessionInvariants.

(** A response whose only cookie is not a session cookie. *)
Lemma handleHeaders_nothing_to_do_witness :
  Index.handleHeaders Sample.rotation
    {| Index.nonce_header := None;
       Index.set_cookie := Some ["WMONID=abc; Path=/"];
       Index.other_headers := ∅ |}
    Index.initial_session
  = Index.initial_session.
Proof.
  apply handleHeaders_nothing_to_do; [reflexivity|].
  intros cookies cookie [= <-] ->%list_elem_of_singleton. reflexivity.
Defined.

(** After a response with a nonce and a session cookie, the Cookie header
    is one of the three. *)
Lemma session_headers_invariant_witness :
  is_Some (Index.headers
             (Index.session_after Sample.rotation
                [{| Index.res_headers := Sample.with_nonce "n1"; Index.data := "" |}])
           !! "Cookie") ∧
  "Cookie" ∈ ["User-Agent"; "Authorization"; "Cookie"].
Proof.
  assert (is_Some (Index.headers
                     (Index.session_after Sample.rotation
                        [{| Index.res_headers := Sample.with_nonce "n1";
                            Index.data := "" |}])
                   !! "Cookie")) as Hcookie.
  { exists "JSESSIONID=0A1B2C". by vm_compute. }
  split; [exact Hcookie|].
  exact (proj2 (session_headers_invariant Sample.rotation
                  [{| Index.res_headers := Sample.with_nonce "n1"; Index.data := "" |}])
           "Cookie" Hcookie).
Defined.

(** SM-S906B is rewritten to SM-S916B, which is left as it is. *)
Lemma transformModel_idempotent_witness :
  ModelTransformer.transformModel "SM-S916B"
  = {| ModelTransformer.original := "SM-S916B";
       ModelTransformer.transformed := JS.JString "SM-S916B";
       ModelTransformer.wasTransformed := false |}.
Proof. apply (transformModel_idempotent "SM-S906B"). reflexivity. Defined.

(** ** index.ts: the steps of [main] *)

Section BindFacts.
Import JS Runtime.

Lemma string_app_assoc (a b c : string) : (a +:+ b) +:+ c = a +:+ b +:+ c.
Proof.
  induction a as [|x a IH]; [done|].
  change (String x ((a +:+ b) +:+ c) = String x (a +:+ b +:+ c)). by rewrite IH.
Qed.

Lemma bind_await {A B} (o : outcome A) (k : A → M B) :
  bind (await o) k = match o with Return a => k a | _ => ([], stop o) end.
Proof. destruct o; [apply bind_await_return|done..]. Qed.

Lemma bind_quiet {A B} (m : M A) (k : A → M B) :
  Forall no_file_effect (effects m) →
  (∀ a, quiet_unless_returns (k a)) →
  quiet_unless_returns (bind m k).
Proof.
  intros Hm Hk. destruct m as [es [a| | |]]; try by intros _.
  rewrite bind_return. intros Hfail. unfold after, effects, result in *. simpl in *.
  apply Forall_app. split; [done|]. by apply Hk.
Qed.
End BindFacts.

Section MainSteps.
Import JS Runtime ModelTransformer Index.
Variable handleAuthRotation : response_headers → string * nonce_pair.
Variable manifest_latest : string → outcome string.
Variable http : request → outcome response.
Variable parse_inform : string → outcome binary_info.
Variable getDecryptionKey : string → string → outcome (list Byte.byte).
Variable createDecipheriv : list Byte.byte → outcome unit.
Variable cwd : string.

Let main :=
  Index.main handleAuthRotation manifest_latest http parse_inform getDecryptionKey
    createDecipheriv cwd.
Let session_after := Index.session_after handleAuthRotation.

Lemma effects_getLatestVersion region model :
  effects (getLatestVersion manifest_latest region model)
  = [HttpRequest (manifest_request region model)].
Proof.
  unfold getLatestVersion. rewrite bind_perform, bind_await.
  by destruct (manifest_latest _).
Qed.

Lemma effects_send r : effects (send http r) = [HttpRequest r].
Proof. unfold send. by rewrite bind_perform. Qed.

(** X7. A nonce response that carries no nonce header does not stop
    [main]: the BinaryInform request is sent all the same, built with the
    empty nonce and without an Authorization header. *)
Theorem main_without_nonce_header region model latest r1 :
  let pm := transformed (transformModel model) in
  manifest_latest (manifest_url region pm) = Return latest →
  http nonce_request = Return r1 →
  nonce_header (res_headers r1) = None →
  ∃ r, effects (main region model) !! 2 = Some (HttpRequest r) ∧
       req_url r = "https://neofussvr.sslcs.cdngc.net/NF_DownloadBinaryInform.do" ∧
       req_body r = BinaryInformMsg (informVersion (triple_of latest)) region pm "" ∧
       req_headers r !! "Authorization" = None.
Proof.
  intros pm Hm H1 Hnonce.
  exists (inform_request (triple_of latest) region pm (session_after [r1])).
  split.
  - unfold main, Index.main.
    erewrite getLatestVersion_return by exact Hm. rewrite bind_return.
    rewrite (bind_send_return _ _ _ _ H1), bind_send. reflexivity.
  - destruct (handleHeaders_nonce_absent handleAuthRotation (res_headers r1)
                initial_session Hnonce) as [Hkept Hauth].
    split; [done|]. split.
    + unfold inform_request. simpl. f_equal.
      unfold session_after, Index.session_after. simpl. by rewrite Hkept.
    + unfold inform_request, xml_headers. simpl.
      rewrite !lookup_insert_ne by done. exact Hauth.
Qed.

(** X8. For a latest-version field of three components with a modem, the
    version string of the BinaryInform request is the field itself followed
    by a separator and the first component. *)
Theorem informVersion_of_latest latest :
  length (split "/" latest) = 3 →
  modem (triple_of latest) ≠ JString "" →
  informVersion (triple_of latest) = latest +:+ "/" +:+ tpl (pda (triple_of latest)).
Proof.
  unfold triple_of, informVersion. simpl. intros Hlen Hmodem.
  pose proof (join_split "/" latest) as Hjoin.
  destruct (split "/" latest) as [|a [|b [|c [|d l]]]]; simplify_eq/=.
  unfold strict_neq. rewrite bool_decide_eq_true_2 by done. simpl.
  by rewrite !string_app_assoc.
Qed.

(** X9. Unless every step of [main] succeeds, [main] creates no directory
    and no file: the output folder exists only once the download request
    has been answered. *)
Theorem main_quiet_unless_returns region model :
  (∀ p, result (main region model) ≠ Return p) →
  Forall no_file_effect (effects (main region model)).
Proof.
  change (quiet_unless_returns (main region model)).
  unfold main, Index.main.
  apply bind_quiet; [by rewrite effects_getLatestVersion; repeat constructor|intros v].
  apply bind_quiet; [by rewrite effects_send; repeat constructor|intros r1].
  apply bind_quiet; [by rewrite effects_send; repeat constructor|intros r2].
  apply bind_quiet; [by constructor|intros info].
  apply bind_quiet; [by constructor|intros key].
  apply bind_quiet; [by rewrite effects_send; repeat constructor|intros r3].
  apply bind_quiet; [by constructor|intros []].
  apply bind_quiet; [by rewrite effects_send; repeat constructor|intros r4].
  intros Hfail. by destruct (Hfail _ eq_refl).
Qed.
End MainSteps.

(** The nonce response of the example, stripped of its nonce header. *)
Lemma main_without_nonce_header_witness :
  ∃ r,
    Runtime.effects
      (Index.main Sample.rotation Sample.manifest
         (λ _, JS.Return {| Index.res_headers := Sample.without_nonce; Index.data := "" |})
         Sample.parse_inform Sample.getDecryptionKey Sample.createDecipheriv
         Sample.cwd "EUX" "SM-S906B") !! 2
    = Some (Runtime.HttpRequest r) ∧
    Runtime.req_body r
    = Runtime.BinaryInformMsg "S916BXXU1AWBD/S916BOXM1AWBD/S916BXXU1AWBD/S916BXXU1AWBD"
        "EUX" (JS.JString "SM-S916B") "" ∧
    Runtime.req_headers r !! "Authorization" = None.
Proof.
  destruct (main_without_nonce_header Sample.rotation Sample.manifest
              (λ _, JS.Return {| Index.res_headers := Sample.without_nonce;
                                 Index.data := "" |})
              Sample.parse_inform Sample.getDecryptionKey Sample.createDecipheriv
              Sample.cwd "EUX" "SM-S906B" "S916BXXU1AWBD/S916BOXM1AWBD/"
              {| Index.res_headers := Sample.without_nonce; Index.data := "" |}
              eq_refl eq_refl eq_refl) as (r & Hsent & _ & Hbody & Hauth).
  by exists r.
Defined.

(** The build of the example in the README. *)
Lemma informVersion_of_latest_witness :
  Index.informVersion (Index.triple_of "F916NTBU1ATJC/F916NOKT1ATJC/F916NKSU1ATJ7")
  = "F916NTBU1ATJC/F916NOKT1ATJC/F916NKSU1ATJ7/F916NTBU1ATJC".
Proof.
  apply (informVersion_of_latest "F916NTBU1ATJC/F916NOKT1ATJC/F916NKSU1ATJ7");
    [reflexivity|]. by vm_compute.
Defined.

(** A service that resets every connection. *)
Lemma main_quiet_unless_returns_witness :
  Forall Runtime.no_file_effect
    (Runtime.effects
       (Index.main Sample.rotation Sample.manifest (λ _, JS.Throw "ECONNRESET")
          Sample.parse_inform Sample.getDecryptionKey Sample.createDecipheriv
          Sample.cwd "EUX" "SM-S906B")).
Proof.
  apply main_quiet_unless_returns. intros p. by vm_compute.
Defined.

(** ** index.ts: more on the handlers of the download stream *)

Section PipelineMore.
Import JS Runtime Index.
Variable path_join : string → string → string.

Let consume := Index.consume path_join.

Lemma write_streams_app es es' :
  write_streams (es ++ es') = write_streams es ++ write_streams es'.
Proof. apply omap_app. Qed.

(** A ["finish"] that finds the count at the expected size ends the run;
    what comes after it is never handled. *)
Lemma consume_exact p pre path post : ∀ st,
  (downloadedSize st + received pre)%Z = totalSize p →
  consume p st (pre ++ Finish path :: post) = consume p st (pre ++ [Finish path]) ∧
  result (consume p st (pre ++ Finish path :: post)) = Exit 0.
Proof.
  induction pre as [|ev pre IH]; intros st Hsize.
  - simpl in Hsize. unfold consume. simpl app. rewrite !(consume_finish path_join).
    rewrite bool_decide_eq_true_2 by lia. done.
  - simpl app. destruct ev as [buffer|path'|path']; simpl in Hsize.
    + unfold consume. rewrite !(consume_data path_join). cbv zeta.
      edestruct (IH {| downloadedSize := downloadedSize st + Z.of_nat (length buffer);
                       currentFile := currentFile st |}) as [Heq Hexit];
        [simpl; lia|].
      unfold consume in Heq, Hexit. split; [by rewrite Heq|by rewrite result_after].
    + unfold consume. rewrite !(consume_entry path_join). cbv zeta.
      edestruct (IH {| downloadedSize := downloadedSize st;
                       currentFile := slice0 18 path' +:+ "..." |}) as [Heq Hexit];
        [simpl; lia|].
      unfold consume in Heq, Hexit. split; [by rewrite Heq|by rewrite result_after].
    + unfold consume. rewrite !(consume_finish path_join).
      case_bool_decide; [done|]. by apply IH.
Qed.

(** X10. As soon as a ["finish"] event finds the bytes received equal to
    the expected size, the process exits with code 0, and no event after
    it is handled: entries that are announced or finish later get no write
    stream and no progress update. *)
Theorem consume_exits_at_first_complete_finish p pre path post :
  received pre = totalSize p →
  consume p initial_download (pre ++ Finish path :: post)
  = consume p initial_download (pre ++ [Finish path]) ∧
  result (consume p initial_download (pre ++ Finish path :: post)) = Exit 0.
Proof. intros Hsize. apply consume_exact. simpl. lia. Qed.

Lemma consume_returns p events : ∀ st st',
  result (consume p st events) = Return st' →
  write_streams (effects (consume p st events))
  = path_join (outputFolder p) <$> entry_paths events ∧
  downloadedSize st' = (downloadedSize st + received events)%Z.
Proof.
  induction events as [|ev events IH]; intros st st'.
  { simpl. intros [= <-]. split; [done|lia]. }
  destruct ev as [buffer|path|path]; unfold consume.
  - rewrite (consume_data path_join). cbv zeta. rewrite result_after.
    intros [Hw Hsize]%IH. unfold after, effects in *. simpl in *.
    split; [done|lia].
  - rewrite (consume_entry path_join). cbv zeta. rewrite result_after.
    intros [Hw Hsize]%IH. unfold after, effects in *. simpl in *.
    split; [by f_equal|done].
  - rewrite (consume_finish path_join). case_bool_decide; [done|].
    intros [Hw Hsize]%IH. by split.
Qed.

(** X11. When the handlers go through a whole stream without ending the
    process, they have opened one write stream per announced entry, in the
    order of the entries, each at [path.join(outputFolder, entry.path)],
    and the count is the total of the bytes delivered. *)
Theorem consume_writes_every_entry p events st :
  result (consume p initial_download events) = Return st →
  write_streams (effects (consume p initial_download events))
  = path_join (outputFolder p) <$> entry_paths events ∧
  downloadedSize st = received events.
Proof.
  intros [Hw Hsize]%consume_returns. split; [done|]. simpl in Hsize. lia.
Qed.
End PipelineMore.

(** All 32 bytes arrive before two entries finish: the first ["finish"]
    ends the run and the second is not handled. *)
Lemma consume_exits_at_first_complete_finish_witness :
  Index.consume Sample.path_join Sample.expected Index.initial_download
    ([Index.Data (replicate 32 Byte.x00); Index.Entry "a.img"; Index.Entry "b.img"]
     ++ Index.Finish "a.img" :: [Index.Finish "b.img"])
  = Index.consume Sample.path_join Sample.expected Index.initial_download
      ([Index.Data (replicate 32 Byte.x00); Index.Entry "a.img"; Index.Entry "b.img"]
       ++ [Index.Finish "a.img"]).
Proof.
  apply (consume_exits_at_first_complete_finish Sample.path_join Sample.expected).
  reflexivity.
Defined.

(** The truncated stream of the example: one entry, one write stream. *)
Lemma consume_writes_every_entry_witness :
  Runtime.write_streams
    (Runtime.effects (Index.consume Sample.path_join Sample.expected
                        Index.initial_download Sample.truncated_stream))
  = ["/home/user/SM-F916N_KOO/BL_F916NTBU1ATJC_CL19952383.tar.md5"].
Proof.
  apply (consume_writes_every_entry Sample.path_join Sample.expected
           Sample.truncated_stream
           {| Index.downloadedSize := 16;
              Index.currentFile := "BL_F916NTBU1ATJC_C..." |}).
  reflexivity.
Defined.

(** ** directDownload.ts: more on the probe and the workflow *)

Section JoinFacts.
Import JS.

(** A string ends with the last of its pieces, after a separator when
    there are several. *)
Lemma join_last sep parts w :
  last parts = Some w →
  join sep parts = w ∨ ∃ pre, join sep parts = pre +:+ sep +:+ w.
Proof.
  induction parts as [|x parts IH]; [done|].
  destruct parts as [|y parts].
  - intros [= <-]. by left.
  - rewrite last_cons_cons. intros Hlast. right.
    change (∃ pre, x +:+ sep +:+ join sep (y :: parts) = pre +:+ sep +:+ w).
    destruct (IH Hlast) as [-> | [pre ->]].
    + by exists x.
    + exists (x +:+ sep +:+ pre). by rewrite !string_app_assoc.
Qed.

Lemma pop_split sep s :
  ∃ w, pop (split sep s) = JString w ∧ occurs sep w = false ∧
       (s = w ∨ ∃ pre, s = pre +:+ String sep w).
Proof.
  unfold pop. destruct (last (split sep s)) as [w|] eqn:Hlast.
  - exists w. split; [done|]. split.
    + apply (split_occurs sep s). by apply last_Some_elem_of.
    + pose proof (join_last (String sep "") _ _ Hlast) as Hjoin.
      rewrite join_split in Hjoin. destruct Hjoin as [->|[pre ->]]; [by left|].
      right. by exists pre.
  - apply last_None in Hlast. by apply split_nonempty in Hlast.
Qed.
End JoinFacts.

Section PendingFacts.
Import DirectDownload.
Context {A : Type}.
Variable promises : list A.

Lemma settle_fold_empty order i : ∀ values,
  values !! i = Some None → i ∉ order →
  foldl (settle promises) values order !! i = Some None.
Proof.
  induction order as [|j order IH]; intros values Hslot Hout; simpl; [done|].
  apply not_elem_of_cons in Hout as [Hne Hout]. apply IH; [|done].
  unfold settle. destruct (promises !! j); [|done].
  by rewrite list_lookup_insert_ne.
Qed.

(** While one promise has not settled, the combined promise is pending. *)
Lemma Promise_all_pending order i :
  i < length promises → i ∉ order → Promise_all order promises = None.
Proof.
  intros Hi Hout. unfold Promise_all. apply mapM_None, Exists_exists.
  exists None. split; [|done]. apply list_elem_of_lookup. exists i.
  apply settle_fold_empty; [|done]. by apply lookup_replicate_2.
Qed.
End PendingFacts.

Section ProbeMore.
Import JS Runtime DirectDownload.
Variable axios_head : string → option head_response.
Variable parseInt : string → jsnum.
Variable order : nat → list nat.
Variable path_join : string → string → string.
Variable path_dirname : string → string.
Variable existsSync : string → bool.
Variable axios_get : string → outcome unit.
Variable written : string → outcome unit.

Let testFirmwareUrl := DirectDownload.testFirmwareUrl axios_head parseInt.
Let findAccessibleFirmwareUrl :=
  DirectDownload.findAccessibleFirmwareUrl axios_head parseInt order.
Let directDownloadWorkflow :=
  DirectDownload.directDownloadWorkflow axios_head parseInt order path_join
    path_dirname existsSync axios_get written.

(** X12. A candidate is reported accessible exactly when the HEAD request
    is answered with status 200, and then it has a size and a file name;
    the file name is never empty and holds no [/]: it is the text after the
    last [/] of the URL, or [firmware.tar.md5] when the URL ends in [/]. *)
Theorem testFirmwareUrl_accessible url :
  (accessible (testFirmwareUrl url) = true ↔
   ∃ response, axios_head url = Some response ∧ status response = 200%Z) ∧
  (accessible (testFirmwareUrl url) = true →
   ∃ name,
     filename (testFirmwareUrl url) = Some name ∧
     is_Some (size (testFirmwareUrl url)) ∧
     name ≠ "" ∧ occurs "/" name = false ∧
     ((url = name ∨ ∃ pre, url = pre +:+ "/" +:+ name) ∨
      (name = "firmware.tar.md5" ∧ (url = "" ∨ ∃ pre, url = pre +:+ "/")))).
Proof.
  unfold testFirmwareUrl, DirectDownload.testFirmwareUrl.
  destruct (axios_head url) as [response|]; [|split; [split; [done|]|done];
                                               by intros (? & ? & _)].
  case_bool_decide as Hstatus; simpl.
  - split; [split; [by exists response|done]|]. intros _.
    destruct (pop_split "/" url) as (w & -> & Hw & Hurl). simpl.
    destruct (decide (w = "")) as [->|Hne].
    + exists "firmware.tar.md5". repeat split; try done. right. split; [done|].
      destruct Hurl as [->|[pre ->]]; [by left|right; by exists pre].
    + exists w. repeat split; try done. by left.
  - split; [split; [done|]|done]. by intros (? & [= <-] & ?).
Qed.

(** X13. A candidate answered without a content-length header, or with an
    empty one, has the size [parseInt("0")]; as [parseInt("0")] is 0, it
    never passes the test of the loop. *)
Theorem no_content_length_never_plausible url response :
  parseInt "0" = Num 0 →
  axios_head url = Some response →
  headers response !! "content-length" = None ∨
  headers response !! "content-length" = Some "" →
  plausible (testFirmwareUrl url) = false.
Proof.
  intros Hzero Hhead Hlength.
  unfold testFirmwareUrl, DirectDownload.testFirmwareUrl. rewrite Hhead.
  case_bool_decide; [|done]. unfold plausible, get. simpl.
  destruct Hlength as [-> | ->]; simpl; by rewrite Hzero.
Qed.

(** X14. No hit is reported before every probe of its batch has settled:
    while one probe of the first batch is outstanding, the search is
    pending, whatever the other probes answered. *)
Theorem search_waits_for_the_batch info j :
  j < batchSize → j ∉ order 0 → findAccessibleFirmwareUrl info = Pending.
Proof.
  intros Hj Hout. unfold findAccessibleFirmwareUrl, DirectDownload.findAccessibleFirmwareUrl.
  cbv zeta. rewrite search_unfold, constructFirmwareUrls_length.
  rewrite bool_decide_eq_true_2 by lia.
  change (0 / batchSize) with 0.
  rewrite (Promise_all_pending _ (order 0) j); [done| |done].
  unfold DirectDownload.probe_all.
  rewrite length_fmap, length_take, length_drop, constructFirmwareUrls_length.
  unfold batchSize in *. lia.
Qed.

(** X15. When the search reports a hit, the workflow downloads it to
    [path.join(outputDir, name)], where [name] is the file name of the hit:
    if the request and the writer succeed it returns that path, having
    created the directory of the path when it was missing; if the request
    fails it throws the error of the request and creates nothing. *)
Theorem workflow_saves_the_hit info outputDir hit :
  all_settle order (length (constructFirmwareUrls info)) →
  findAccessibleFirmwareUrl info = Return (Some hit) →
  ∃ name,
    found_filename hit = Some name ∧
    let path := path_join outputDir name in
    let get :=
      HttpRequest {| method := "GET"; req_url := url hit; req_body := NoBody;
                     req_headers := download_headers |} in
    (axios_get (url hit) = Return tt → written path = Return tt →
     directDownloadWorkflow info outputDir
     = (get :: (if existsSync (path_dirname path) then []
                else [MkdirSync (path_dirname path)])
            ++ [CreateWriteStream path],
        Return path)) ∧
    (∀ e, axios_get (url hit) = Throw e →
          directDownloadWorkflow info outputDir = ([get], Throw e)).
Proof.
  intros Hsettle Hfind.
  pose proof (findAccessibleFirmwareUrl_first_plausible axios_head parseInt order
                info Hsettle) as Hfirst.
  fold findAccessibleFirmwareUrl in Hfirst. rewrite Hfind in Hfirst.
  assert (first_plausible (probe_all axios_head parseInt (constructFirmwareUrls info))
          = Some hit) as Hhit by congruence.
  destruct (proj1 (first_plausible_Some _ _ _ _) Hhit) as (k & _ & Hp & _ & Hname & _).
  fold testFirmwareUrl in Hp, Hname.
  assert (accessible (testFirmwareUrl (url hit)) = true) as Hacc.
  { unfold plausible in Hp. by apply andb_true_iff in Hp as [? _]. }
  destruct (testFirmwareUrl_accessible (url hit)) as [_ Hshape].
  destruct (Hshape Hacc) as (name & Hfile & _). rewrite Hfile in Hname.
  exists name. split; [done|]. cbv zeta.
  unfold directDownloadWorkflow, DirectDownload.directDownloadWorkflow.
  fold findAccessibleFirmwareUrl. rewrite Hfind, bind_await_return, Hname.
  unfold downloadFirmwareDirect. rewrite bind_perform. split.
  - intros Hget Hwritten. rewrite Hget, bind_await_return, Hwritten.
    by destruct (existsSync _).
  - intros e Hget. by rewrite Hget.
Qed.
End ProbeMore.

Lemma shuffled_all_settle n : DirectDownload.all_settle Sample.shuffled n.
Proof.
  intros b j Hj _. unfold Sample.shuffled, DirectDownload.batchSize in *.
  do 5 (destruct j as [|j]; [set_solver|]). lia.
Qed.

(** The seventh candidate of the example, answered with status 200. *)
Lemma testFirmwareUrl_accessible_witness :
  ∃ name,
    DirectDownload.filename
      (DirectDownload.testFirmwareUrl (Sample.head_only_seventh "2000000")
         Sample.parseInt Sample.seventh)
    = Some name ∧ name ≠ "".
Proof.
  destruct (testFirmwareUrl_accessible (Sample.head_only_seventh "2000000")
              Sample.parseInt Sample.seventh) as [_ Hshape].
  destruct (Hshape eq_refl) as (name & Hname & _ & Hne & _). by exists name.
Defined.

(** A host that answers 200 without any header. *)
Lemma no_content_length_never_plausible_witness :
  DirectDownload.plausible
    (DirectDownload.testFirmwareUrl
       (λ _, Some {| DirectDownload.status := 200; DirectDownload.headers := ∅ |})
       Sample.parseInt Sample.seventh)
  = false.
Proof.
  apply (no_content_length_never_plausible _ _ _
           {| DirectDownload.status := 200; DirectDownload.headers := ∅ |});
    [reflexivity|reflexivity|by left].
Defined.

(** Every candidate exists, but the fifth probe of a batch never settles. *)
Lemma search_waits_for_the_batch_witness :
  DirectDownload.findAccessibleFirmwareUrl
    (λ _, Some {| DirectDownload.status := 200;
                  DirectDownload.headers := {["content-length" := "2000000"]} |})
    Sample.parseInt (λ _, [0; 1; 2; 3]) Sample.info
  = JS.Pending.
Proof.
  apply (search_waits_for_the_batch _ _ _ _ 4).
  - unfold DirectDownload.batchSize. lia.
  - apply (bool_decide_unpack _). by vm_compute.
Defined.

(** The seventh candidate of the example is saved under its own name. *)
Lemma workflow_saves_the_hit_witness :
  DirectDownload.directDownloadWorkflow (Sample.head_only_seventh "2000000")
    Sample.parseInt Sample.shuffled Sample.path_join (λ _, "./downloads") (λ _, false)
    (λ _, JS.Return tt) (λ _, JS.Return tt) Sample.info "./downloads/"
  = ([ Runtime.HttpRequest
         {| Runtime.method := "GET"; Runtime.req_url := Sample.seventh;
            Runtime.req_body := Runtime.NoBody;
            Runtime.req_headers := DirectDownload.download_headers |};
       Runtime.MkdirSync "./downloads";
       Runtime.CreateWriteStream
         "./downloads/SM-F916N_F916NTBU1ATJC_F916NOKT1ATJC_F916NKSU1ATJ7_HOME.tar.md5" ],
     JS.Return "./downloads/SM-F916N_F916NTBU1ATJC_F916NOKT1ATJC_F916NKSU1ATJ7_HOME.tar.md5").
Proof.
  destruct (workflow_saves_the_hit (Sample.head_only_seventh "2000000")
              Sample.parseInt Sample.shuffled Sample.path_join (λ _, "./downloads")
              (λ _, false) (λ _, JS.Return tt) (λ _, JS.Return tt) Sample.info
              "./downloads/"
              {| DirectDownload.url := Sample.seventh;
                 DirectDownload.found_size := Some (JS.Num 2000000);
                 DirectDownload.found_filename :=
                   Some "SM-F916N_F916NTBU1ATJC_F916NOKT1ATJC_F916NKSU1ATJ7_HOME.tar.md5" |}
              (shuffled_all_settle _))
    as (name & Hname & Hok & _).
  - by vm_compute.
  - injection Hname as <-. apply Hok; reflexivity.
Defined.

(** ** gofileUpload.ts: the upload *)

Section UploadMore.
Import JS Runtime GofileUpload.
Variable existsSync : string → bool.
Variable statSync_size : string → Z.
Variable path_basename : string → string.
Variable getServer : option server_response.
Variable post_upload : string → string → outcome upload_response.
Variable toISOString : string.

Let uploadToGofile :=
  GofileUpload.uploadToGofile existsSync statSync_size path_basename getServer
    post_upload toISOString.

Lemma getBestServer_spec :
  getBestServer getServer = ([HttpRequest server_request], Return (chosen_server getServer)).
Proof.
  unfold getBestServer, chosen_server. fold server_request. rewrite bind_perform.
  destruct getServer as [[n|answer]|]; [done| |done]. simpl read_from.
  rewrite bind_ret. case_decide; [|done]. by destruct (sv_data answer).
Qed.

(** The ways an upload of an existing file ends. *)
Lemma uploadToGofile_cases filePath :
  existsSync filePath = true →
  let url := upload_url getServer in
  uploadToGofile filePath
  = ([HttpRequest server_request; GofileUpload url filePath],
     match post_upload url filePath with
     | Return (Nullish n) =>
         Throw ("Gofile.io upload failed: " +:+ TypeError_message n "status")
     | Return (AnObject answer) =>
         if decide (up_status answer = JString "ok") then
           match up_data answer with
           | AnObject data =>
               Return (result_of (path_basename filePath) (statSync_size filePath)
                         toISOString data)
           | Nullish n =>
               Throw ("Gofile.io upload failed: " +:+ TypeError_message n "downloadPage")
           end
         else Throw ("Gofile.io upload failed: " +:+ "Upload failed: "
                     +:+ tpl (or_else (up_message answer) (JString "Unknown error")))
     | Throw message => Throw ("Gofile.io upload failed: " +:+ message)
     | Pending => Pending
     | Exit code => Exit code
     end).
Proof.
  intros Hexists url. unfold uploadToGofile, GofileUpload.uploadToGofile.
  rewrite Hexists, getBestServer_spec, bind_return. fold (upload_url getServer). fold url.
  rewrite bind_perform, bind_await.
  destruct (post_upload url filePath) as [[n|answer]|message| |]; try done.
  simpl read_from. rewrite bind_ret. case_decide; [|done].
  by destruct (up_data answer).
Qed.

(** X16. An upload returns a result only for a file that exists and an
    answer of status [ok] that has data; the result has [success = true],
    the name and size of the local file, and the page and file id of the
    data; its direct link is the one of the data, or the download page when
    the data has none. *)
Theorem upload_result_only_on_ok filePath r :
  result (uploadToGofile filePath) = Return r →
  existsSync filePath = true ∧
  ∃ answer data,
    post_upload (upload_url getServer) filePath = Return (AnObject answer) ∧
    up_status answer = JString "ok" ∧
    up_data answer = AnObject data ∧
    success r = true ∧
    fileName r = path_basename filePath ∧
    fileSize r = statSync_size filePath ∧
    downloadPage r = up_downloadPage data ∧
    fileId r = up_fileId data ∧
    directLink r = match up_directLink data with
                   | JString link => if decide (link = "") then up_downloadPage data
                                     else JString link
                   | JUndefined => up_downloadPage data
                   | link => link
                   end.
Proof.
  destruct (existsSync filePath) eqn:Hexists.
  - rewrite uploadToGofile_cases by done. cbv zeta. unfold result. simpl.
    destruct (post_upload _ filePath) as [[n|answer]| | |]; try done.
    case_decide as Hok; [|done].
    destruct (up_data answer) as [n|data] eqn:Hdata; [done|].
    intros [= <-]. split; [done|]. exists answer, data.
    repeat split; try done. simpl. unfold or_else.
    destruct (up_directLink data) as [|link| |]; try done. simpl.
    by repeat case_decide; case_bool_decide.
  - unfold uploadToGofile, GofileUpload.uploadToGofile. by rewrite Hexists.
Qed.

(** X17. An upload that throws either found no file, and then it has sent
    nothing and its message is [File not found: ] and the path, or it
    throws a message that starts with [Gofile.io upload failed: ], followed
    by what was thrown inside the [try]: the message of the failed request;
    for an answer whose status is not [ok], [Upload failed: ] and the
    message of the answer ([Unknown error] when it has none); for a nullish
    answer, or an answer of status [ok] whose data is nullish, the message
    of the TypeError of the first property read, [status] or
    [downloadPage]. *)
Theorem upload_errors filePath message :
  result (uploadToGofile filePath) = Throw message →
  (existsSync filePath = false ∧
   uploadToGofile filePath = ([], Throw ("File not found: " +:+ filePath))) ∨
  (existsSync filePath = true ∧
   ∃ cause,
     message = "Gofile.io upload failed: " +:+ cause ∧
     (post_upload (upload_url getServer) filePath = Throw cause ∨
      (∃ n,
         post_upload (upload_url getServer) filePath = Return (Nullish n) ∧
         cause = TypeError_message n "status") ∨
      (∃ answer,
         post_upload (upload_url getServer) filePath = Return (AnObject answer) ∧
         up_status answer ≠ JString "ok" ∧
         cause = "Upload failed: "
                 +:+ tpl (or_else (up_message answer) (JString "Unknown error"))) ∨
      (∃ answer n,
         post_upload (upload_url getServer) filePath = Return (AnObject answer) ∧
         up_status answer = JString "ok" ∧
         up_data answer = Nullish n ∧
         cause = TypeError_message n "downloadPage"))).
Proof.
  destruct (existsSync filePath) eqn:Hexists.
  - rewrite uploadToGofile_cases by done. cbv zeta. unfold result. simpl.
    intros Hthrow. right. split; [done|].
    destruct (post_upload _ filePath) as [[n|answer]|cause| |]; try done.
    + injection Hthrow as <-. eexists. split; [done|]. right; left. by exists n.
    + case_decide as Hok.
      * destruct (up_data answer) as [n|data] eqn:Hdata; [|done].
        injection Hthrow as <-. eexists. split; [done|].
        right; right; right. by exists answer, n.
      * injection Hthrow as <-. eexists. split; [done|].
        right; right; left. by exists answer.
    + injection Hthrow as <-. exists cause. split; [done|]. by left.
  - intros _. left. split; [done|].
    unfold uploadToGofile, GofileUpload.uploadToGofile. by rewrite Hexists.
Qed.

(** X18. Whatever the answer to the upload, an upload of an existing file
    sends two requests: the server lookup, and the upload itself to
    [`https://${server}.gofile.io/uploadFile`].  When the lookup is answered
    with status [ok] and data that is not nullish, [server] is whatever the
    data has as [server]: for data without that property it is
    [undefined], and the upload goes to https://undefined.gofile.io.  In
    every other case (the lookup fails, its answer is nullish, its status
    is not [ok], or its data is nullish) [server] is [store1]. *)
Theorem upload_goes_to_chosen_server filePath :
  existsSync filePath = true →
  ∃ server,
    effects (uploadToGofile filePath)
    = [ HttpRequest server_request;
        GofileUpload ("https://" +:+ tpl server +:+ ".gofile.io/uploadFile") filePath ] ∧
    ((∃ answer,
        getServer = Some (AnObject answer) ∧ sv_status answer = JString "ok" ∧
        sv_data answer = AnObject server) ∨
     (server = JString "store1" ∧
      ∀ answer named,
        getServer = Some (AnObject answer) → sv_status answer = JString "ok" →
        sv_data answer ≠ AnObject named)) ∧
    (server = JUndefined →
     effects (uploadToGofile filePath)
     = [ HttpRequest server_request;
         GofileUpload "https://undefined.gofile.io/uploadFile" filePath ]).
Proof.
  intros Hexists. exists (chosen_server getServer).
  rewrite uploadToGofile_cases by done. split; [done|]. split.
  - unfold chosen_server. destruct getServer as [[n|answer]|].
    + right. by split.
    + case_decide as Hok.
      * destruct (sv_data answer) as [n|named] eqn:Hdata.
        -- right. split; [done|]. intros ? ? [= <-] _. by rewrite Hdata.
        -- left. by exists answer.
      * right. split; [done|]. by intros ? ? [= <-] ?.
    + right. by split.
  - unfold upload_url. by intros ->.
Qed.
End UploadMore.

(** ** gofileUpload.ts: more on the reports *)

Section ReportsMore.
Import GofileUpload.

Lemma progress_counts_app (l1 l2 : list (Z * report)) :
  progress_counts (l1 ++ l2) = progress_counts l1 ++ progress_counts l2.
Proof. apply omap_app. Qed.

Lemma speed_bytes_app (l1 l2 : list (Z * report)) :
  speed_bytes (l1 ++ l2) = (speed_bytes l1 + speed_bytes l2)%Z.
Proof.
  induction l1 as [|[t []] l1 IH]; simpl in *; lia.
Qed.

Lemma on_data_counts fileSize st c :
  let st' := on_data fileSize st c in
  let n := (uploadedBytes st + Z.of_N (chunk_length c))%Z in
  uploadedBytes st' = n ∧
  progress_counts (printed st') = progress_counts (printed st) ++ [(n, fileSize)] ∧
  (Forall speed_interval_ok (printed st) → Forall speed_interval_ok (printed st')) ∧
  (speed_bytes (printed st') - lastUploadedBytes (closure st')
   = speed_bytes (printed st) - lastUploadedBytes (closure st))%Z ∧
  (lastUploadedBytes (closure st) ≤ uploadedBytes st →
   lastUploadedBytes (closure st') ≤ uploadedBytes st')%Z.
Proof.
  unfold on_data, onProgress. case_bool_decide as Hlate; simpl.
  - rewrite !progress_counts_app, !speed_bytes_app. simpl.
    repeat split; try done; try lia.
    intros Hok. apply Forall_app. split; [done|].
    repeat constructor. unfold speed_interval_ok. simpl. lia.
  - rewrite !progress_counts_app, !speed_bytes_app. simpl.
    repeat split; try done; try lia.
    intros Hok. apply Forall_app. split; [done|]. by repeat constructor.
Qed.

Lemma upload_counts fileSize chunks : ∀ st,
  let st' := foldl (on_data fileSize) st chunks in
  uploadedBytes st' = (uploadedBytes st + chunk_total chunks)%Z ∧
  progress_counts (printed st')
  = progress_counts (printed st)
    ++ ((λ n, (n, fileSize)) <$> running_totals (uploadedBytes st) chunks) ∧
  (Forall speed_interval_ok (printed st) → Forall speed_interval_ok (printed st')) ∧
  (speed_bytes (printed st') - lastUploadedBytes (closure st')
   = speed_bytes (printed st) - lastUploadedBytes (closure st))%Z ∧
  (lastUploadedBytes (closure st) ≤ uploadedBytes st →
   lastUploadedBytes (closure st') ≤ uploadedBytes st')%Z.
Proof.
  induction chunks as [|c chunks IH]; intros st; simpl.
  { rewrite app_nil_r. repeat split; try done; lia. }
  destruct (IH (on_data fileSize st c)) as (Hn & Hp & Hok & Hb & Hle).
  destruct (on_data_counts fileSize st c) as (Hn1 & Hp1 & Hok1 & Hb1 & Hle1).
  rewrite Hn1 in *. repeat split.
  - lia.
  - by rewrite Hp, Hp1, <- app_assoc.
  - auto.
  - lia.
  - auto.
Qed.

(** X19. The handlers print one progress line per chunk, showing the
    running total of the bytes of the chunks so far and the size of the
    file; at the end the count is the total of the bytes of the chunks. *)
Theorem progress_lines_show_running_total start fileSize chunks :
  let st := upload_handlers start fileSize chunks in
  progress_counts (printed st) = (λ n, (n, fileSize)) <$> running_totals 0 chunks ∧
  uploadedBytes st = chunk_total chunks.
Proof.
  intros st. subst st. unfold upload_handlers.
  destruct (upload_counts fileSize chunks
              {| uploadedBytes := 0;
                 closure := {| lastProgressTime := start; lastUploadedBytes := 0 |};
                 printed := [] |}) as (Hn & Hp & _).
  simpl in *. split; [done|lia].
Qed.

(** X20. Every speed line is computed over an interval of more than 2000
    ms, so the division by the elapsed seconds is never by zero; and the
    byte counts of the speed lines add up to the count at the last speed
    line, which is at most the bytes uploaded: no byte is reported twice. *)
Theorem speed_lines_account_once start fileSize chunks :
  let st := upload_handlers start fileSize chunks in
  Forall speed_interval_ok (printed st) ∧
  speed_bytes (printed st) = lastUploadedBytes (closure st) ∧
  (lastUploadedBytes (closure st) ≤ uploadedBytes st)%Z.
Proof.
  intros st. subst st. unfold upload_handlers.
  destruct (upload_counts fileSize chunks
              {| uploadedBytes := 0;
                 closure := {| lastProgressTime := start; lastUploadedBytes := 0 |};
                 printed := [] |}) as (_ & _ & Hok & Hb & Hle).
  simpl in *. split; [by apply Hok|]. split; [lia|by apply Hle].
Qed.
End ReportsMore.

(** The host accepts the upload and names no direct link. *)
Lemma upload_result_only_on_ok_witness :
  ∃ r,
    Runtime.result (Sample.upload Sample.accepted "./downloads/firmware.tar.md5")
    = JS.Return r ∧
    GofileUpload.success r = true ∧
    GofileUpload.directLink r = JS.JString "https://gofile.io/d/Z19n9a".
Proof.
  eexists. split; [reflexivity|].
  destruct (upload_result_only_on_ok (λ _, true) (λ _, 10485760%Z)
              (λ _, "firmware.tar.md5") None (λ _ _, JS.Return Sample.accepted)
              "2024-01-01T00:00:00.000Z" "./downloads/firmware.tar.md5" _ eq_refl)
    as (_ & answer & data & Hpost & _ & Hdata & Hsuccess & _ & _ & _ & _ & Hlink).
  split; [exact Hsuccess|]. injection Hpost as <-. injection Hdata as <-. exact Hlink.
Defined.

(** The host answers with status [ok] and no data. *)
Lemma upload_errors_witness :
  ∃ cause,
    "Gofile.io upload failed: Cannot read properties of undefined (reading 'downloadPage')"
    = "Gofile.io upload failed: " +:+ cause ∧
    cause ≠ "Upload failed: Unknown error".
Proof.
  destruct (upload_errors (λ _, true) (λ _, 10485760%Z) (λ _, "firmware.tar.md5")
              None (λ _ _, JS.Return Sample.ok_without_data) "2024-01-01T00:00:00.000Z"
              "./downloads/firmware.tar.md5"
              "Gofile.io upload failed: Cannot read properties of undefined (reading 'downloadPage')"
              eq_refl)
    as [[Hmissing _]|(_ & cause & Hcause & _)]; [discriminate Hmissing|].
  exists cause. split; [exact Hcause|]. intros ->. discriminate Hcause.
Defined.

(** The lookup is answered with status [ok] and an empty data: the upload
    goes to https://undefined.gofile.io. *)
Lemma upload_goes_to_chosen_server_witness :
  Runtime.effects
    (GofileUpload.uploadToGofile (λ _, true) (λ _, 10485760%Z) (λ _, "firmware.tar.md5")
       (Some Sample.lookup_without_server) (λ _ _, JS.Return Sample.accepted)
       "2024-01-01T00:00:00.000Z" "./downloads/firmware.tar.md5")
  = [ Runtime.HttpRequest GofileUpload.server_request;
      Runtime.GofileUpload "https://undefined.gofile.io/uploadFile"
        "./downloads/firmware.tar.md5" ].
Proof.
  destruct (upload_goes_to_chosen_server (λ _, true) (λ _, 10485760%Z)
              (λ _, "firmware.tar.md5") (Some Sample.lookup_without_server)
              (λ _ _, JS.Return Sample.accepted)
              "2024-01-01T00:00:00.000Z" "./downloads/firmware.tar.md5" eq_refl)
    as (server & _ & [(answer & Hlookup & _ & Hdata)|[-> Hother]] & Hundefined).
  - injection Hlookup as <-. injection Hdata as <-. by apply Hundefined.
  - by destruct (Hother _ JS.JUndefined eq_refl eq_refl).
Defined.

(** ** index.ts: more on the bypass path *)

Section BypassMore.
Import JS Runtime ModelTransformer.
Variable manifest_latest : string → outcome string.
Variable path_join : string → string → string.
Variable path_basename : string → string.
Variable existsSync : string → bool.
Variable axios_head : string → option DirectDownload.head_response.
Variable parseInt : string → jsnum.
Variable order : nat → list nat.
Variable path_dirname : string → string.
Variable axios_get : string → outcome unit.
Variable written : string → outcome unit.
Variable statSync_size : string → Z.
Variable getServer : option GofileUpload.server_response.
Variable post_upload : string → string → outcome GofileUpload.upload_response.
Variable toISOString : string.
Variable createUploadSummary :
  GofileUpload.GofileUploadResult → jsval → string → jsval → option string → string.

Let directDownloadWorkflow :=
  DirectDownload.directDownloadWorkflow axios_head parseInt order path_join
    path_dirname existsSync axios_get written.
Let uploadFirmwareToGofile :=
  GofileUpload.uploadFirmwareToGofile existsSync statSync_size path_basename getServer
    post_upload toISOString.
Let mainBypassDownload :=
  Index.mainBypassDownload manifest_latest path_join path_basename existsSync
    axios_head parseInt order path_dirname axios_get written statSync_size getServer
    post_upload toISOString createUploadSummary.

Lemma try_catch_never_throws {A} (m : M A) es :
  (∀ message, result (try_catch m (λ message,
                        bind (perform (ConsoleError message)) (λ _, process_exit 1)))
              ≠ Throw message) ∧
  (∀ message, m = (es, Throw message) →
     try_catch m (λ message,
        bind (perform (ConsoleError message)) (λ _, process_exit 1))
     = (es ++ [ConsoleError message; ProcessExit 1], Exit 1)).
Proof.
  split.
  - intros message. by destruct m as [es' [a|e| |]].
  - by intros message ->.
Qed.

(** X21. [mainBypassDownload] never throws: an error of any step is
    printed and the process ends with code 1.  When the manifest cannot be
    fetched this happens right after the request: no directory is created
    and nothing is probed, downloaded or uploaded. *)
Theorem mainBypassDownload_never_throws region model outputDir :
  (∀ message, result (mainBypassDownload region model outputDir) ≠ Throw message) ∧
  (∀ e,
     manifest_latest (Index.manifest_url region (transformed (transformModel model)))
     = Throw e →
     mainBypassDownload region model outputDir
     = ([ HttpRequest (Index.manifest_request region (transformed (transformModel model)));
          ConsoleError e; ProcessExit 1 ],
        Exit 1)).
Proof.
  split.
  - intros message. unfold mainBypassDownload, Index.mainBypassDownload.
    apply (try_catch_never_throws _ []).
  - intros e Hm. unfold mainBypassDownload, Index.mainBypassDownload.
    rewrite (proj2 (try_catch_never_throws _
               [HttpRequest (Index.manifest_request region
                               (transformed (transformModel model)))]) e); [done|].
    unfold Index.getLatestVersion. by rewrite bind_assoc, bind_perform, Hm.
Qed.

(** X22. After a download that returned the path [file], the upload
    decides how the bypass path ends.  If it returns, the summary is
    written to [path.join(outputDir, basename(file) + "_upload_summary.txt")]
    and the run returns; the original model is passed to the summary only
    when the model was transformed.  If it throws, the error is printed,
    no summary is written and the process ends with code 1. *)
Theorem mainBypassDownload_after_download region model outputDir latest es1 file es2 :
  let pm := transformed (transformModel model) in
  let mkdir := if existsSync outputDir then [] else [MkdirSync outputDir] in
  manifest_latest (Index.manifest_url region pm) = Return latest →
  directDownloadWorkflow (Index.bypass_info region model latest) outputDir
  = (es1, Return file) →
  (∀ r,
     uploadFirmwareToGofile file = (es2, Return r) →
     mainBypassDownload region model outputDir
     = (HttpRequest (Index.manifest_request region pm) :: mkdir ++ es1 ++ es2
          ++ [ WriteFileSync
                 (path_join outputDir (path_basename file +:+ "_upload_summary.txt"))
                 (createUploadSummary r pm region (Index.pda (Index.triple_of latest))
                    (if wasTransformed (transformModel model) then Some model else None)) ],
        Return tt)) ∧
  (∀ e,
     uploadFirmwareToGofile file = (es2, Throw e) →
     mainBypassDownload region model outputDir
     = (HttpRequest (Index.manifest_request region pm) :: mkdir ++ es1 ++ es2
          ++ [ConsoleError e; ProcessExit 1],
        Exit 1)).
Proof.
  intros pm mkdir Hm Hflow. subst pm mkdir.
  unfold mainBypassDownload, Index.mainBypassDownload.
  erewrite getLatestVersion_return by exact Hm. rewrite bind_return.
  fold (Index.bypass_info region model latest).
  fold directDownloadWorkflow uploadFirmwareToGofile. rewrite Hflow.
  assert (∀ (k : unit → M unit),
            bind (if existsSync outputDir then ret tt else perform (MkdirSync outputDir)) k
            = after (if existsSync outputDir then [] else [MkdirSync outputDir]) (k tt))
    as -> by (intros k; destruct (existsSync outputDir);
              [by rewrite bind_ret, after_nil|by rewrite bind_perform]).
  rewrite bind_return. split.
  - intros r ->. rewrite bind_return. unfold try_catch, after. simpl.
    by rewrite ?app_nil_r, <- ?app_assoc.
  - intros e ->. unfold try_catch, after. simpl.
    by rewrite ?app_nil_r, <- ?app_assoc.
Qed.
End BypassMore.

(** The manifest answers 403. *)
Lemma mainBypassDownload_never_throws_witness :
  Index.mainBypassDownload (λ _, JS.Throw "Request failed with status code 403")
    Sample.path_join (λ _, "firmware.tar.md5") (λ _, false)
    (Sample.head_only_seventh "2000000") Sample.parseInt Sample.shuffled
    (λ _, "./downloads") (λ _, JS.Return tt) (λ _, JS.Return tt) (λ _, 10485760%Z) None
    (λ _ _, JS.Return Sample.accepted) "2024-01-01T00:00:00.000Z"
    (λ r _ _ _ _, JS.tpl (GofileUpload.downloadPage r))
    "KOO" "SM-F916N" "./downloads/"
  = ([ Runtime.HttpRequest (Index.manifest_request "KOO" (JS.JString "SM-F916N"));
       Runtime.ConsoleError "Request failed with status code 403";
       Runtime.ProcessExit 1 ],
     JS.Exit 1).
Proof.
  apply (mainBypassDownload_never_throws
           (λ _, JS.Throw "Request failed with status code 403")).
  reflexivity.
Defined.

(** The seventh candidate is downloaded and the host accepts the upload. *)
Lemma mainBypassDownload_after_download_witness :
  let outcome_of_run :=
    Index.mainBypassDownload Sample.manifest_f916n
      Sample.path_join (λ _, "firmware.tar.md5") (λ _, true)
      (Sample.head_only_seventh "2000000") Sample.parseInt Sample.shuffled
      (λ _, "./downloads") (λ _, JS.Return tt) (λ _, JS.Return tt) (λ _, 10485760%Z) None
      (λ _ _, JS.Return Sample.accepted) "2024-01-01T00:00:00.000Z"
      (λ r _ _ _ _, JS.tpl (GofileUpload.downloadPage r))
      "KOO" "SM-F916N" "./downloads/" in
  Runtime.result outcome_of_run = JS.Return tt ∧
  last (Runtime.effects outcome_of_run)
  = Some (Runtime.WriteFileSync "./downloads/firmware.tar.md5_upload_summary.txt"
            "https://gofile.io/d/Z19n9a").
Proof.
  intros outcome_of_run. subst outcome_of_run.
  pose (flow :=
          DirectDownload.directDownloadWorkflow (Sample.head_only_seventh "2000000")
            Sample.parseInt Sample.shuffled Sample.path_join (λ _, "./downloads")
            (λ _, true) (λ _, JS.Return tt) (λ _, JS.Return tt)
            (Index.bypass_info "KOO" "SM-F916N"
               "F916NTBU1ATJC/F916NOKT1ATJC/F916NKSU1ATJ7") "./downloads/").
  pose (file := match Runtime.result flow with JS.Return f => f | _ => "" end).
  pose (sent :=
          GofileUpload.uploadFirmwareToGofile (λ _, true) (λ _, 10485760%Z)
            (λ _, "firmware.tar.md5") None (λ _ _, JS.Return Sample.accepted)
            "2024-01-01T00:00:00.000Z" file).
  destruct (mainBypassDownload_after_download Sample.manifest_f916n
              Sample.path_join (λ _, "firmware.tar.md5") (λ _, true)
              (Sample.head_only_seventh "2000000") Sample.parseInt Sample.shuffled
              (λ _, "./downloads") (λ _, JS.Return tt) (λ _, JS.Return tt)
              (λ _, 10485760%Z) None (λ _ _, JS.Return Sample.accepted)
              "2024-01-01T00:00:00.000Z" (λ r _ _ _ _, JS.tpl (GofileUpload.downloadPage r))
              "KOO" "SM-F916N" "./downloads/"
              "F916NTBU1ATJC/F916NOKT1ATJC/F916NKSU1ATJ7"
              (Runtime.effects flow) file (Runtime.effects sent))
    as [Hok _]; [by vm_compute..|].
  rewrite (Hok (match Runtime.result sent with
                | JS.Return r => r
                | _ => GofileUpload.result_of "" 0 "" Sample.accepted_data
                end)) by by vm_compute.
  split; reflexivity.
Defined.

(** ** utils/downloadBypass.ts *)

Section DownloadBypassFacts.
Import JS Runtime DownloadBypass.
Variable axios_get : request → outcome unit.
Variable written : request → string → outcome unit.

Let downloadFirmwareBypass := DownloadBypass.downloadFirmwareBypass axios_get written.

(** X23. The information built by [createFirmwareInfo] points at the URL
    that [main] downloads from; as that URL already names the host
    cloud-neofussvr, the replacement made for the second method gives the
    host cloud-cloud-neofussvr. *)
Theorem createFirmwareInfo_urls model region pda csc modem (info : Index.binary_info) s :
  let firmwareInfo :=
    createFirmwareInfo model region pda csc modem (Index.binaryFilename info)
      (Index.binaryByteSize info) (Index.binaryModelPath info) in
  req_url (direct_request firmwareInfo) = req_url (Index.download_request info s) ∧
  req_url (alternative_request firmwareInfo)
  = "http://cloud-cloud-neofussvr.sslcs.cdngc.net/NF_DownloadBinaryForMass.do?file="
    +:+ Index.binaryModelPath info +:+ Index.binaryFilename info.
Proof. split; reflexivity. Qed.

(** X24. [downloadFirmwareBypass] tries the second method only when the
    first request itself fails.  If the second method fails too, the error
    is [All download methods failed. Last error: ] and its message.  If the
    first request succeeds and its writer fails, the error of the writer is
    thrown as it is and no second request is sent.  The function creates no
    directory. *)
Theorem downloadFirmwareBypass_fallback firmwareInfo outputPath :
  let first := direct_request firmwareInfo in
  let second := alternative_request firmwareInfo in
  (∀ e cause,
     axios_get first = Throw e → axios_get second = Throw cause →
     downloadFirmwareBypass firmwareInfo outputPath
     = ([HttpRequest first; HttpRequest second],
        Throw ("All download methods failed. Last error: " +:+ cause))) ∧
  (∀ e cause,
     axios_get first = Throw e → axios_get second = Return tt →
     written second outputPath = Throw cause →
     downloadFirmwareBypass firmwareInfo outputPath
     = ([HttpRequest first; HttpRequest second; CreateWriteStream outputPath],
        Throw ("All download methods failed. Last error: " +:+ cause))) ∧
  (∀ e,
     axios_get first = Throw e → axios_get second = Return tt →
     written second outputPath = Return tt →
     downloadFirmwareBypass firmwareInfo outputPath
     = ([HttpRequest first; HttpRequest second; CreateWriteStream outputPath],
        Return outputPath)) ∧
  (∀ o,
     axios_get first = Return tt → written first outputPath = o →
     downloadFirmwareBypass firmwareInfo outputPath
     = ([HttpRequest first; CreateWriteStream outputPath],
        match o with Return _ => Return outputPath | _ => stop o end)).
Proof.
  intros first second. subst first second.
  unfold downloadFirmwareBypass, DownloadBypass.downloadFirmwareBypass,
    downloadWithAlternativeAuth.
  cbv zeta. repeat split.
  - intros e cause -> Hsecond. rewrite bind_perform, bind_await.
    unfold try_catch at 1. simpl stop. cbv beta iota.
    rewrite bind_perform, Hsecond. reflexivity.
  - intros e cause -> Hsecond Hwritten. rewrite bind_perform, bind_await.
    unfold try_catch at 1. simpl stop. cbv beta iota.
    rewrite bind_perform, Hsecond, Hwritten. reflexivity.
  - intros e -> Hsecond Hwritten. rewrite bind_perform, bind_await.
    unfold try_catch at 1. simpl stop. cbv beta iota.
    rewrite bind_perform, Hsecond, Hwritten. reflexivity.
  - intros o -> Hwritten. rewrite bind_perform, bind_await.
    unfold try_catch. simpl. rewrite Hwritten. by destruct o as [[]| | |].
Qed.
End DownloadBypassFacts.

(** Both requests for the build of the README are refused. *)
Lemma downloadFirmwareBypass_fallback_witness :
  DownloadBypass.downloadFirmwareBypass (λ _, JS.Throw "Request failed with status code 403")
    (λ _ _, JS.Return tt) Sample.firmwareInfo "./downloads/firmware.zip.enc4"
  = ([ Runtime.HttpRequest (DownloadBypass.direct_request Sample.firmwareInfo);
       Runtime.HttpRequest (DownloadBypass.alternative_request Sample.firmwareInfo) ],
     JS.Throw
       "All download methods failed. Last error: Request failed with status code 403").
Proof.
  destruct (downloadFirmwareBypass_fallback
              (λ _, JS.Throw "Request failed with status code 403") (λ _ _, JS.Return tt)
              Sample.firmwareInfo "./downloads/firmware.zip.enc4") as [Hboth _].
  apply (Hboth "Request failed with status code 403"); reflexivity.
Defined.
